(** * UPnP/IGD integration: setup, teardown and the refresh coordinator

    A shallow embedding of [homeassistant/components/upnp/__init__.py].
    Python dictionaries are finite maps, the mutable objects the module
    touches ([hass.data[DOMAIN]], the config entry, the ssdp callback list)
    live in an explicit [World], exceptions are values of [Exn], and every
    call to an external collaborator is recorded in order of execution. *)

From Stdlib Require Import ZArith String List Lia.
From stdpp Require Import gmap strings list fin_maps.

Local Open Scope Z_scope.
Local Open Scope string_scope.

(** ** Python data *)

(** The values that appear in the fetched result mappings ([Any] in the
    source: counters, status strings, flags, missing readings). *)
Inductive Value :=
| VNone
| VBool (b : bool)
| VInt (z : Z)
| VStr (s : string).

#[global] Instance Value_eq_dec : EqDecision Value.
Proof. solve_decision. Defined.

(** [Mapping[str, Any]] for fetch results; entry data and discovery info
    carry strings only. *)
Abbreviation Mapping := (gmap string Value).
Abbreviation StrMapping := (gmap string string).

(** [d.update(other)]: every key of [other] is written into [d]. *)
Definition dict_update {V} (d other : gmap string V) : gmap string V :=
  other ∪ d.

(** [dict(d)]: a fresh copy with the same items. *)
Definition dict_copy {V} (d : gmap string V) : gmap string V := d.

(** The dict display [{k: v, **rest}]: items are evaluated left to right,
    so [k: v] is stored first and the unpacked items of [rest] are written
    after it. *)
Definition dict_display_spread {V} (k : string) (v : V) (rest : gmap string V)
  : gmap string V :=
  dict_update (<[k := v]> ∅) rest.

(** [d.get(k, dflt)] *)
Definition dict_get {V} (d : gmap string V) (k : string) (dflt : V) : V :=
  default dflt (d !! k).

(** ** Exceptions and results *)

Inductive Exn :=
| KeyError (key : string)
| TypeError
| TimeoutError                         (* asyncio.TimeoutError *)
| CancelledError                       (* asyncio.CancelledError *)
| DeviceError (msg : string)           (* raised by the device collaborator *)
| ConfigEntryNotReady (cause : Exn).   (* raise ... from cause *)

Inductive Result (A : Type) :=
| Return (a : A)
| Raise (e : Exn).
Arguments Return {A} a.
Arguments Raise {A} e.

Definition is_raise {A} (r : Result A) : bool :=
  match r with Raise _ => true | Return _ => false end.

(** ** Objects *)

Module Device.
Record t := {
  udn : string;
  name : string;
  manufacturer : string;
  model_name : string;
  hostname : string;
  unique_id : string }.
End Device.

Module ConfigEntry.
Record t := {
  entry_id : string;
  unique_id : option string;
  data : StrMapping;
  options : gmap string Z }.
End ConfigEntry.

(** [DataUpdateCoordinator] fields used here; [data] is the last published
    snapshot. *)
Module Coordinator.
Record t := {
  device : Device.t;
  update_interval : Z;
  data : option Mapping;
  last_update_success : bool;
  last_exception : option Exn }.
End Coordinator.

(** [hass.data[DOMAIN]].  The source keeps the three fixed keys
    [DOMAIN_CONFIG], [DOMAIN_DEVICES], [DOMAIN_LOCAL_IP] and one key per
    config entry id in the same dict; entry ids are generated identifiers
    distinct from the fixed keys, so the per-entry part is its own map. *)
Record DomainData := {
  domain_config : StrMapping;
  domain_devices : gmap string Device.t;
  domain_local_ip : string;
  coordinators : gmap string Coordinator.t }.

(** The mutable state reachable from [hass] and [entry]. *)
Record World := {
  hass_data : option DomainData;       (* hass.data.get(DOMAIN) *)
  config_entry : ConfigEntry.t;        (* the entry object passed in *)
  ssdp_callbacks : list string }.      (* filters of registered callbacks *)

(** Calls made to collaborators outside this module. *)
Inductive Call :=
| GetSourceIp                            (* async_get_source_ip *)
| FlowInit                               (* config_entries.flow.async_init *)
| SsdpRegister (usn : string)            (* ssdp.async_register_callback *)
| SsdpCancel (usn : string)              (* cancel_discovered_callback() *)
| WaitFor (timeout : Z)                  (* asyncio.wait_for(event.wait()) *)
| CreateDevice (location : string)       (* Device.async_create_device *)
| UpdateEntryUniqueId (uid : string)     (* async_update_entry(unique_id=) *)
| UpdateEntryData (data : StrMapping)    (* async_update_entry(data=) *)
| RegistryGetOrCreate (entry_id udn name manufacturer model : string)
| FirstRefresh                           (* async_config_entry_first_refresh *)
| SetupPlatforms (platforms : list string)
| DeviceStart (d : Device.t)             (* device.async_start() *)
| DeviceStop (d : Device.t)              (* device.async_stop() *)
| UnloadPlatforms (platforms : list string).

(** ** The effect monad: state, exceptions and a log of calls *)

Record Outcome (A : Type) := {
  result : Result A;
  world : World;
  calls : list Call }.
Arguments result {A} _.
Arguments world {A} _.
Arguments calls {A} _.

Definition M (A : Type) : Type := World → Outcome A.

#[global] Instance M_ret : MRet M := λ A a w,
  {| result := Return a; world := w; calls := [] |}.

#[global] Instance M_bind : MBind M := λ A B f m w,
  let o := m w in
  match result o with
  | Return a =>
      let o' := f a (world o) in
      {| result := result o'; world := world o'; calls := calls o ++ calls o' |}
  | Raise e => {| result := Raise e; world := world o; calls := calls o |}
  end.

Definition raise {A} (e : Exn) : M A := λ w,
  {| result := Raise e; world := w; calls := [] |}.

Definition lift {A} (r : Result A) : M A := λ w,
  {| result := r; world := w; calls := [] |}.

Definition get : M World := λ w,
  {| result := Return w; world := w; calls := [] |}.

Definition put (w : World) : M unit := λ _,
  {| result := Return tt; world := w; calls := [] |}.

Definition call (c : Call) : M unit := λ w,
  {| result := Return tt; world := w; calls := [c] |}.

(** [try: body  except <handled> as err: handler  finally: final].
    [handler e = None] means no except clause matches [e]. The finally
    block runs on every path; an exception it raises replaces the pending
    outcome. *)
Definition try_except_finally {A} (body : M A)
    (handler : Exn → option (M A)) (final : M unit) : M A := λ w,
  let o := body w in
  let o1 :=
    match result o with
    | Return _ => o
    | Raise e =>
        match handler e with
        | None => o
        | Some h =>
            let oh := h (world o) in
            {| result := result oh; world := world oh;
               calls := calls o ++ calls oh |}
        end
    end in
  let o2 := final (world o1) in
  {| result := match result o2 with
               | Return _ => result o1
               | Raise e => Raise e
               end;
     world := world o2;
     calls := calls o1 ++ calls o2 |}.

(** [d[k]] on a dict: [KeyError] when the key is missing. *)
Definition subscript {V} (d : gmap string V) (k : string) : M V :=
  match d !! k with
  | Some v => mret v
  | None => raise (KeyError k)
  end.

(** ** Constants imported from [.const] and [ssdp]

    Their values are not part of this module; the development is
    parametric in them. *)
Class Const := {
  DOMAIN : string;
  CONF_LOCAL_IP : string;
  CONFIG_ENTRY_HOSTNAME : string;
  CONFIG_ENTRY_SCAN_INTERVAL : string;
  CONFIG_ENTRY_ST : string;
  CONFIG_ENTRY_UDN : string;
  DEFAULT_SCAN_INTERVAL : Z;
  ATTR_SSDP_LOCATION : string }.

Definition PLATFORMS : list string := ["binary_sensor"; "sensor"].

(** ** What the collaborators do during one run *)

(** What reaches the discovery wait: a matching announcement handed to the
    registered callback, or an exception thrown into the waiting task. *)
Inductive Stimulus :=
| Announce (info : StrMapping)
| Interrupt (e : Exn).

Record Env := {
  (* stimuli in order of arrival, each with its arrival time in seconds
     counted from the start of the wait; stimuli with the same arrival
     time are dispatched back to back, before any task runs again *)
  feed : list (Z * Stimulus);
  (* Device.async_create_device(hass, location) *)
  create_device : string → Result Device.t;
  (* device.async_get_traffic_data() and device.async_get_status() *)
  traffic_data : Result Mapping;
  status : Result Mapping;
  (* when both fetches fail: did the status fetch fail first? *)
  status_fails_first : bool;
  (* return value of hass.config_entries.async_unload_platforms *)
  platforms_unloaded : bool }.

(** ** World updates *)

Definition set_entry (e : ConfigEntry.t) (w : World) : World :=
  {| hass_data := hass_data w; config_entry := e;
     ssdp_callbacks := ssdp_callbacks w |}.

Definition set_hass_data (d : option DomainData) (w : World) : World :=
  {| hass_data := d; config_entry := config_entry w;
     ssdp_callbacks := ssdp_callbacks w |}.

Definition set_ssdp_callbacks (l : list string) (w : World) : World :=
  {| hass_data := hass_data w; config_entry := config_entry w;
     ssdp_callbacks := l |}.

Definition set_coordinators (m : gmap string Coordinator.t) (d : DomainData)
  : DomainData :=
  {| domain_config := domain_config d; domain_devices := domain_devices d;
     domain_local_ip := domain_local_ip d; coordinators := m |}.

(** Removes the first occurrence, as [list.remove] does. *)
Fixpoint remove_first (x : string) (l : list string) : list string :=
  match l with
  | [] => []
  | y :: l' => if decide (x = y) then l' else y :: remove_first x l'
  end.

(** ** ssdp registration *)

Definition register_callback (usn : string) : M unit :=
  call (SsdpRegister usn);;
  w ← get;
  put (set_ssdp_callbacks (usn :: ssdp_callbacks w) w).

Definition cancel_callback (usn : string) : M unit :=
  call (SsdpCancel usn);;
  w ← get;
  put (set_ssdp_callbacks (remove_first usn (ssdp_callbacks w)) w).

(** ** RefreshCoordinator *)

(** [asyncio.gather(a, b)] without [return_exceptions]: both results when
    both succeed, otherwise the exception that was raised first. *)
Definition gather {A B} (second_fails_first : bool)
    (r0 : Result A) (r1 : Result B) : Result (A * B) :=
  match r0, r1 with
  | Return a, Return b => Return (a, b)
  | Raise e, Return _ => Raise e
  | Return _, Raise e => Raise e
  | Raise e0, Raise e1 => Raise (if second_fails_first then e1 else e0)
  end.

(** [UpnpDataUpdateCoordinator._async_update_data] *)
Definition _async_update_data (race : bool) (traffic status : Result Mapping)
  : Result Mapping :=
  match gather race traffic status with
  | Raise e => Raise e
  | Return update_values =>
      let data := dict_copy (fst update_values) in
      let data := dict_update data (snd update_values) in
      Return data
  end.

(** Modelled from the spec: the refresh cycle of [DataUpdateCoordinator],
    the base class that calls [_async_update_data]; its code is not in this
    module.  Spec 4.3: if any fetch fails, record the causing error, mark
    [last_update_success = false], leave [last_snapshot] unchanged; if all
    succeed, set the merged mapping as the new [last_snapshot] and mark
    [last_update_success = true]. *)
Definition async_refresh (update : Result Mapping) (c : Coordinator.t)
  : Coordinator.t :=
  match update with
  | Return snapshot =>
      {| Coordinator.device := Coordinator.device c;
         Coordinator.update_interval := Coordinator.update_interval c;
         Coordinator.data := Some snapshot;
         Coordinator.last_update_success := true;
         Coordinator.last_exception := Coordinator.last_exception c |}
  | Raise e =>
      {| Coordinator.device := Coordinator.device c;
         Coordinator.update_interval := Coordinator.update_interval c;
         Coordinator.data := Coordinator.data c;
         Coordinator.last_update_success := false;
         Coordinator.last_exception := Some e |}
  end.

(** One refresh cycle of the coordinator against the device's two fetch
    operations. *)
Definition refresh_cycle (race : bool) (traffic status : Result Mapping)
    (c : Coordinator.t) : Coordinator.t :=
  async_refresh (_async_update_data race traffic status) c.

(** [UpnpDataUpdateCoordinator.__init__].  The fields the base class
    initialiser sets are taken as: no snapshot yet, no failure recorded. *)
Definition UpnpDataUpdateCoordinator (device : Device.t) (update_interval : Z)
  : Coordinator.t :=
  {| Coordinator.device := device;
     Coordinator.update_interval := update_interval;
     Coordinator.data := None;
     Coordinator.last_update_success := true;
     Coordinator.last_exception := None |}.

(** ** The component *)

Section Upnp.
Context `{Const}.

(** *** [async_setup] *)

Definition async_setup (config : gmap string StrMapping) (source_ip : string)
  : M bool :=
  (* CONFIG_SCHEMA({DOMAIN: {}})[DOMAIN]: the only key is optional *)
  let conf_default : StrMapping := ∅ in
  let conf := dict_get config DOMAIN conf_default in
  call GetSourceIp;;
  let local_ip := source_ip in
  w ← get;
  put (set_hass_data
         (Some {| domain_config := conf;
                  domain_devices := ∅;
                  domain_local_ip := dict_get conf CONF_LOCAL_IP local_ip;
                  coordinators := ∅ |}) w);;
  (if decide (is_Some (config !! DOMAIN)) then call FlowInit else mret tt);;
  mret true.

(** *** The discovery wait *)

(** The locals [discovery_info] and [device_discovered_event] that the
    callback closes over. *)
Record Waiter := {
  discovery_info : option StrMapping;
  device_discovered_event : bool }.

Definition new_waiter : Waiter :=
  {| discovery_info := None; device_discovered_event := false |}.

(** The callback.  Its logging call evaluates [info[ATTR_SSDP_LOCATION]]
    first, so an announcement without a location raises [KeyError] inside
    the dispatcher and stores nothing. *)
Definition device_discovered (info : StrMapping) (wt : Waiter) : Waiter :=
  match info !! ATTR_SSDP_LOCATION with
  | None => wt
  | Some _ => {| discovery_info := Some info; device_discovered_event := true |}
  end.

(** Between the callback that sets the event and the moment the waiting
    task runs again, the callback is still registered: what is dispatched
    in that interval (the stimuli that carry the arrival time [t] of the
    announcement that set the event) still reaches it.  A further
    announcement runs the callback again, which stores its information
    over the one stored before; an exception thrown into the task reaches
    it before it returns.  Stimuli with a later arrival time come after
    the task has run again and has cancelled the callback. *)
Fixpoint settle (t : Z) (stimuli : list (Z * Stimulus)) (wt : Waiter)
  : Result Waiter :=
  match stimuli with
  | [] => Return wt
  | (t', s) :: rest =>
      if (t' =? t)%Z
      then match s with
           | Interrupt e => Raise e
           | Announce info => settle t rest (device_discovered info wt)
           end
      else Return wt
  end.

(** [asyncio.wait_for(device_discovered_event.wait(), timeout)] against the
    stimuli of the run: it returns once the event is set and the task has
    run again, raises [TimeoutError] when [timeout] seconds pass first,
    and lets an exception thrown into the task escape. *)
Fixpoint wait_for (timeout : Z) (stimuli : list (Z * Stimulus)) (wt : Waiter)
  : Result Waiter :=
  match stimuli with
  | [] => Raise TimeoutError
  | (t, s) :: rest =>
      if (timeout <=? t)%Z then Raise TimeoutError
      else match s with
           | Interrupt e => Raise e
           | Announce info =>
               let wt' := device_discovered info wt in
               if device_discovered_event wt' then settle t rest wt'
               else wait_for timeout rest wt'
           end
  end.

(** *** Config entry updates *)

(** Modelled from the spec: [hass.config_entries.async_update_entry], whose
    code is not in this module.  Spec 6: update functions for unique-id
    assignment and hostname reconciliation, a no-op if the value already
    matches. *)
Definition async_update_entry_unique_id (uid : string) : M unit :=
  call (UpdateEntryUniqueId uid);;
  w ← get;
  let e := config_entry w in
  put (set_entry {| ConfigEntry.entry_id := ConfigEntry.entry_id e;
                    ConfigEntry.unique_id := Some uid;
                    ConfigEntry.data := ConfigEntry.data e;
                    ConfigEntry.options := ConfigEntry.options e |} w).

(** Modelled from the spec: as above, for the [data] argument. *)
Definition async_update_entry_data (data : StrMapping) : M unit :=
  call (UpdateEntryData data);;
  w ← get;
  let e := config_entry w in
  put (set_entry {| ConfigEntry.entry_id := ConfigEntry.entry_id e;
                    ConfigEntry.unique_id := ConfigEntry.unique_id e;
                    ConfigEntry.data := data;
                    ConfigEntry.options := ConfigEntry.options e |} w).

(** Truth value of [entry.unique_id]: [None] and the empty string are
    falsy. *)
Definition truthy (o : option string) : bool :=
  match o with
  | None => false
  | Some s => negb (String.eqb s "")
  end.

Definition get_entry : M ConfigEntry.t :=
  w ← get; mret (config_entry w).

(** [hass.data[DOMAIN][key] = c] *)
Definition store_coordinator (key : string) (c : Coordinator.t) : M unit :=
  w ← get;
  match hass_data w with
  | None => raise (KeyError DOMAIN)
  | Some d =>
      put (set_hass_data
             (Some (set_coordinators (<[key := c]> (coordinators d)) d)) w)
  end.

(** Modelled from the spec: [async_config_entry_first_refresh] of the base
    class, not in this module.  Spec 4.3 (4): the first cycle runs
    synchronously during setup and, if it fails, the whole setup fails.
    The coordinator object is the one already saved under [key], so the
    cycle's effect on it is written back there. *)
Definition async_config_entry_first_refresh (env : Env) (key : string)
    (c : Coordinator.t) : M unit :=
  call FirstRefresh;;
  let update := _async_update_data (status_fails_first env)
                  (traffic_data env) (status env) in
  store_coordinator key (async_refresh update c);;
  match update with
  | Return _ => mret tt
  | Raise e => raise (ConfigEntryNotReady e)
  end.

(** *** [async_setup_entry] *)

(** Lines 89-116: register the callback, wait at most 10 seconds for the
    event, and cancel the registration in the [finally] block. *)
Definition discover (usn : string) (env : Env) : M Waiter :=
  register_callback usn;;
  try_except_finally
    (call (WaitFor 10);; lift (wait_for 10 (feed env) new_waiter))
    (λ err, match err with
            | TimeoutError => Some (raise (ConfigEntryNotReady err))
            | _ => None
            end)
    (cancel_callback usn).

(** Lines 124-144: unique id and hostname of the entry against the device
    just created. *)
Definition reconcile (device : Device.t) : M unit :=
  (* Ensure entry has a unique_id. *)
  entry ← get_entry;
  (if negb (truthy (ConfigEntry.unique_id entry))
   then async_update_entry_unique_id (Device.unique_id device)
   else mret tt);;
  (* Ensure entry has a hostname, for older entries. *)
  entry ← get_entry;
  if decide (ConfigEntry.data entry !! CONFIG_ENTRY_HOSTNAME = None
             ∨ ConfigEntry.data entry !! CONFIG_ENTRY_HOSTNAME
               ≠ Some (Device.hostname device))
  then async_update_entry_data
         (dict_display_spread CONFIG_ENTRY_HOSTNAME (Device.hostname device)
            (ConfigEntry.data entry))
  else mret tt.

(** Lines 146-180: registry entry, coordinator, first refresh, platforms,
    device updater. *)
Definition start_session (env : Env) (device : Device.t) : M bool :=
  (* Create device registry entry. *)
  entry ← get_entry;
  call (RegistryGetOrCreate (ConfigEntry.entry_id entry) (Device.udn device)
          (Device.name device) (Device.manufacturer device)
          (Device.model_name device));;
  let update_interval_sec :=
    dict_get (ConfigEntry.options entry) CONFIG_ENTRY_SCAN_INTERVAL
      DEFAULT_SCAN_INTERVAL in
  let update_interval := update_interval_sec in
  let coordinator := UpnpDataUpdateCoordinator device update_interval in
  (* Save coordinator. *)
  store_coordinator (ConfigEntry.entry_id entry) coordinator;;
  async_config_entry_first_refresh env (ConfigEntry.entry_id entry) coordinator;;
  (* Create sensors. *)
  call (SetupPlatforms PLATFORMS);;
  (* Start device updater. *)
  call (DeviceStart device);;
  mret true.

(** [discovery_info[ssdp.ATTR_SSDP_LOCATION]] after the wait. *)
Definition discovered_location (wt : Waiter) : M string :=
  match discovery_info wt with
  | None => raise TypeError
  | Some info => subscript info ATTR_SSDP_LOCATION
  end.

Definition async_setup_entry (env : Env) : M bool :=
  entry ← get_entry;
  udn ← subscript (ConfigEntry.data entry) CONFIG_ENTRY_UDN;
  st ← subscript (ConfigEntry.data entry) CONFIG_ENTRY_ST;
  let usn := udn ++ "::" ++ st in
  wt ← discover usn env;
  (* Create device. *)
  location ← discovered_location wt;
  call (CreateDevice location);;
  device ← lift (create_device env location);
  reconcile device;;
  start_session env device.

(** *** [async_unload_entry] *)

Definition async_unload_entry (env : Env) : M bool :=
  entry ← get_entry;
  w ← get;
  domain_data ← match hass_data w with
                | Some d => mret d
                | None => raise (KeyError DOMAIN)
                end;
  (* hass.data[DOMAIN].pop(config_entry.entry_id, None) *)
  let key := ConfigEntry.entry_id entry in
  let popped := coordinators domain_data !! key in
  put (set_hass_data
         (Some (set_coordinators (delete key (coordinators domain_data))
                  domain_data)) w);;
  match popped with
  | Some coordinator => call (DeviceStop (Coordinator.device coordinator))
  | None => mret tt
  end;;
  call (UnloadPlatforms PLATFORMS);;
  mret (platforms_unloaded env).

End Upnp.

(** ** A concrete installation

    The key names Home Assistant uses, for running the model. *)
Definition ha_const : Const :=
  {| DOMAIN := "upnp";
     CONF_LOCAL_IP := "local_ip";
     CONFIG_ENTRY_HOSTNAME := "hostname";
     CONFIG_ENTRY_SCAN_INTERVAL := "scan_interval";
     CONFIG_ENTRY_ST := "st";
     CONFIG_ENTRY_UDN := "udn";
     DEFAULT_SCAN_INTERVAL := 30;
     ATTR_SSDP_LOCATION := "ssdp_location" |}.

Definition router : Device.t :=
  {| Device.udn := "udn123";
     Device.name := "Router";
     Device.manufacturer := "ACME";
     Device.model_name := "IGD-1";
     Device.hostname := "192.168.1.1";
     Device.unique_id := "udn123::urn:schemas-upnp-org:device:InternetGatewayDevice:1" |}.

Definition wan_st : string := "urn:schemas-upnp-org:service:WANIPConnection:1".

Definition entry0 (uid : option string) (data : StrMapping) : ConfigEntry.t :=
  {| ConfigEntry.entry_id := "e1";
     ConfigEntry.unique_id := uid;
     ConfigEntry.data := data;
     ConfigEntry.options := ∅ |}.

Definition domain0 : DomainData :=
  {| domain_config := ∅; domain_devices := ∅;
     domain_local_ip := "10.0.0.2"; coordinators := ∅ |}.

Definition world0 (e : ConfigEntry.t) : World :=
  {| hass_data := Some domain0; config_entry := e; ssdp_callbacks := [] |}.

Definition announce_at (t : Z) : list (Z * Stimulus) :=
  [(t, Announce {["ssdp_location" := "http://192.168.1.1:1900/desc.xml"]})].

Definition env0 (stimuli : list (Z * Stimulus)) : Env :=
  {| feed := stimuli;
     create_device := λ _, Return router;
     traffic_data := Return {["bytes_sent" := VInt 100]};
     status := Return {["status" := VStr "Connected"]};
     status_fails_first := false;
     platforms_unloaded := true |}.

(** Entry data with the identity of the specification's example. *)
Definition data_udn_st : StrMapping :=
  <["udn" := "udn123"]> (<["st" := wan_st]> ∅).

(** An entry with udn and service type, no unique id, no hostname. *)
Definition fresh_entry : ConfigEntry.t := entry0 None data_udn_st.

(** An entry whose stored hostname is not the one the router reports. *)
Definition stale_entry : ConfigEntry.t :=
  entry0 (Some "udn123::igd") (<["hostname" := "192.168.1.254"]> data_udn_st).

(** An entry that asks for a 30 second discovery timeout in its options. *)
Definition patient_entry : ConfigEntry.t :=
  {| ConfigEntry.entry_id := "e1";
     ConfigEntry.unique_id := Some "udn123::igd";
     ConfigEntry.data := <["hostname" := "192.168.1.1"]> data_udn_st;
     ConfigEntry.options := <["timeout" := 30]> (<["scan_interval" := 30]> ∅) |}.

Definition usn0 : string :=
  "udn123::urn:schemas-upnp-org:service:WANIPConnection:1".

(** The example of the specification: identity
    [udn123::urn:schemas-upnp-org:service:WANIPConnection:1], announcement
    after 2 seconds, first refresh merging the two mappings. *)
Definition example_snapshot : option Mapping :=
  hass_data (world (async_setup_entry (H := ha_const) (env0 (announce_at 2))
                      (world0 fresh_entry)))
  ≫= λ d, coordinators d !! "e1" ≫= Coordinator.data.

(** The waiting task is cancelled after 3 seconds. *)
Definition cancelled_wait : list (Z * Stimulus) :=
  [(3, Interrupt CancelledError)].

Definition traffic_ok : Result Mapping := Return {["bytes_sent" := VInt 100]}.

Definition status_down : Result Mapping := Raise (DeviceError "no route").

(** A coordinator that already holds a snapshot. *)
Definition warm_coordinator : Coordinator.t :=
  {| Coordinator.device := router;
     Coordinator.update_interval := 30;
     Coordinator.data := Some {["bytes_sent" := VInt 7]};
     Coordinator.last_update_success := true;
     Coordinator.last_exception := None |}.

(** The environment of [env0] with a status fetch that fails. *)
Definition env_down (stimuli : list (Z * Stimulus)) : Env :=
  {| feed := stimuli;
     create_device := λ _, Return router;
     traffic_data := traffic_ok;
     status := status_down;
     status_fails_first := false;
     platforms_unloaded := true |}.

(** A world in which the entry's coordinator is stored. *)
Definition running_domain : DomainData :=
  {| domain_config := ∅; domain_devices := ∅; domain_local_ip := "10.0.0.2";
     coordinators := {["e1" := warm_coordinator]} |}.

Definition running_world : World :=
  {| hass_data := Some running_domain; config_entry := fresh_entry;
     ssdp_callbacks := [] |}.

(** ** Observing a run *)

(** How many calls of a kind a run has made. *)
Fixpoint count (p : Call → bool) (cs : list Call) : nat :=
  match cs with
  | [] => 0
  | c :: cs' => (if p c then 1 else 0) + count p cs'
  end.

Definition is_register (c : Call) : bool :=
  match c with SsdpRegister _ => true | _ => false end.

Definition is_cancel (c : Call) : bool :=
  match c with SsdpCancel _ => true | _ => false end.

Definition is_stop (c : Call) : bool :=
  match c with DeviceStop _ => true | _ => false end.

Definition is_start (c : Call) : bool :=
  match c with DeviceStart _ => true | _ => false end.

Definition is_setup_platforms (c : Call) : bool :=
  match c with SetupPlatforms _ => true | _ => false end.

Definition is_unique_id_write (c : Call) : bool :=
  match c with UpdateEntryUniqueId _ => true | _ => false end.

Definition is_data_write (c : Call) : bool :=
  match c with UpdateEntryData _ => true | _ => false end.

Definition is_entry_update (c : Call) : bool :=
  is_unique_id_write c || is_data_write c.

(** The calls made after the wait. *)
Definition is_late (c : Call) : bool :=
  match c with
  | CreateDevice _ | UpdateEntryUniqueId _ | UpdateEntryData _
  | RegistryGetOrCreate _ _ _ _ _ | FirstRefresh | SetupPlatforms _
  | DeviceStart _ => true
  | _ => false
  end.

(** The local IP kept in [hass.data[DOMAIN]], if the component is set up. *)
Definition stored_local_ip (w : World) : option string :=
  domain_local_ip <$> hass_data w.

(** An outcome reached after the calls [cs] were made. *)
Definition prepend {A} (cs : list Call) (o : Outcome A) : Outcome A :=
  {| result := result o; world := world o; calls := cs ++ calls o |}.

(** ** The phases of [async_setup_entry] in closed form

    What each phase returns, leaves behind and calls, written as plain
    functions of its inputs; the properties below first show that the
    code computes these. *)

Section Descriptions.
Context `{Const}.

(** What the wait hands back to [async_setup_entry]. *)
Definition discover_result (env : Env) : Result Waiter :=
  match wait_for 10 (feed env) new_waiter with
  | Return wt => Return wt
  | Raise TimeoutError => Raise (ConfigEntryNotReady TimeoutError)
  | Raise e => Raise e
  end.

(** The rest of [async_setup_entry], from the device creation on. *)
Definition after_discovery (env : Env) (wt : Waiter) : M bool :=
  location ← discovered_location wt;
  call (CreateDevice location);;
  device ← lift (create_device env location);
  reconcile device;;
  start_session env device.

(** The guard of the hostname step, lines 137-140. *)
Definition hostname_stale (device : Device.t) (e : ConfigEntry.t) : bool :=
  bool_decide (ConfigEntry.data e !! CONFIG_ENTRY_HOSTNAME = None
               ∨ ConfigEntry.data e !! CONFIG_ENTRY_HOSTNAME
                 ≠ Some (Device.hostname device)).

(** The entry after the unique-id step. *)
Definition with_unique_id (device : Device.t) (e : ConfigEntry.t)
  : ConfigEntry.t :=
  {| ConfigEntry.entry_id := ConfigEntry.entry_id e;
     ConfigEntry.unique_id :=
       if truthy (ConfigEntry.unique_id e) then ConfigEntry.unique_id e
       else Some (Device.unique_id device);
     ConfigEntry.data := ConfigEntry.data e;
     ConfigEntry.options := ConfigEntry.options e |}.

(** The entry as [reconcile] leaves it. *)
Definition reconciled (device : Device.t) (e : ConfigEntry.t) : ConfigEntry.t :=
  {| ConfigEntry.entry_id := ConfigEntry.entry_id e;
     ConfigEntry.unique_id := ConfigEntry.unique_id (with_unique_id device e);
     ConfigEntry.data :=
       if hostname_stale device e
       then dict_display_spread CONFIG_ENTRY_HOSTNAME (Device.hostname device)
              (ConfigEntry.data e)
       else ConfigEntry.data e;
     ConfigEntry.options := ConfigEntry.options e |}.

(** The update calls [reconcile] makes. *)
Definition reconcile_calls (device : Device.t) (e : ConfigEntry.t) : list Call :=
  (if truthy (ConfigEntry.unique_id e) then []
   else [UpdateEntryUniqueId (Device.unique_id device)])
  ++ (if hostname_stale device e
      then [UpdateEntryData
              (dict_display_spread CONFIG_ENTRY_HOSTNAME
                 (Device.hostname device) (ConfigEntry.data e))]
      else []).

(** The registry upsert of lines 147-155. *)
Definition registry_call (device : Device.t) (e : ConfigEntry.t) : Call :=
  RegistryGetOrCreate (ConfigEntry.entry_id e) (Device.udn device)
    (Device.name device) (Device.manufacturer device)
    (Device.model_name device).

(** The world once the coordinator has been saved and has gone through
    its first cycle. *)
Definition session_world (env : Env) (device : Device.t) (d : DomainData)
    (w : World) : World :=
  let e := config_entry w in
  let c := UpnpDataUpdateCoordinator device
             (dict_get (ConfigEntry.options e) CONFIG_ENTRY_SCAN_INTERVAL
                DEFAULT_SCAN_INTERVAL) in
  let c' := refresh_cycle (status_fails_first env) (traffic_data env)
              (status env) c in
  set_hass_data
    (Some (set_coordinators (<[ConfigEntry.entry_id e := c']> (coordinators d))
             d)) w.

End Descriptions.

(** ** More concrete inputs *)

(** An announcement without a location, and one with a location. *)
Definition bare_announcement : Stimulus := Announce {["usn" := usn0]}.

Definition located_announcement (url : string) : Stimulus :=
  Announce {["ssdp_location" := url]}.

Definition desc_url : string := "http://192.168.1.1:1900/desc.xml".

Definition bare_then_cancelled_rest : list (Z * Stimulus) :=
  [(4, located_announcement desc_url)].

Definition bare_then_located_rest : list (Z * Stimulus) :=
  [(5, located_announcement "http://192.168.1.9:1900/desc.xml")].

(** A bare announcement, then a cancellation of the waiting task. *)
Definition cancelled_feed : list (Z * Stimulus) :=
  [(1, bare_announcement)]
  ++ (3, Interrupt CancelledError) :: bare_then_cancelled_rest.

(** A bare announcement, then two located ones. *)
Definition located_feed : list (Z * Stimulus) :=
  [(1, bare_announcement)]
  ++ (2, located_announcement desc_url) :: bare_then_located_rest.

Definition second_url : string := "http://192.168.1.2:1900/desc.xml".

(** A bare announcement, then two located ones dispatched together, then
    a later one. *)
Definition twin_feed : list (Z * Stimulus) :=
  [(1, bare_announcement)]
  ++ (2, located_announcement desc_url)
     :: (2, located_announcement second_url) :: bare_then_located_rest.

Definition only_bare : list (Z * Stimulus) :=
  [(1, bare_announcement); (12, bare_announcement)].

(** The environment of [env0] with a device that cannot be created. *)
Definition env_unreachable (stimuli : list (Z * Stimulus)) : Env :=
  {| feed := stimuli;
     create_device := λ _, Raise (DeviceError "unreachable");
     traffic_data := traffic_ok;
     status := status_down;
     status_fails_first := false;
     platforms_unloaded := true |}.

(** A world in which the component has not been set up. *)
Definition bare_world : World :=
  {| hass_data := None; config_entry := fresh_entry; ssdp_callbacks := [] |}.

(** An entry without a stored udn. *)
Definition anonymous_entry : ConfigEntry.t := entry0 None ∅.

(** ** The entity base class *)

(** The mapping [UpnpEntity.__init__] stores in [_attr_device_info]:
    keys "connections", "name", "manufacturer" and "model". *)
Record DeviceInfo := {
  info_connections : gset (string * string);
  info_name : string;
  info_manufacturer : string;
  info_model : string }.

Module UpnpEntity.
Record t := {
  coordinator : Coordinator.t;
  _device : Device.t;
  _attr_device_info : DeviceInfo }.
End UpnpEntity.

(** [UpnpEntity.__init__]; [CONNECTION_UPNP] is the constant of the device
    registry module, which is not part of this module. *)
Definition UpnpEntity (CONNECTION_UPNP : string) (coordinator : Coordinator.t)
  : UpnpEntity.t :=
  {| UpnpEntity.coordinator := coordinator;
     UpnpEntity._device := Coordinator.device coordinator;
     UpnpEntity._attr_device_info :=
       {| info_connections :=
            {[ (CONNECTION_UPNP, Device.udn (Coordinator.device coordinator)) ]};
          info_name := Device.name (Coordinator.device coordinator);
          info_manufacturer :=
            Device.manufacturer (Coordinator.device coordinator);
          info_model := Device.model_name (Coordinator.device coordinator) |} |}.

(** ** More observers *)

Definition is_flow_init (c : Call) : bool :=
  match c with FlowInit => true | _ => false end.

(** The coordinator kept in [hass.data[DOMAIN]] under [key], if any. *)
Definition stored_coordinator (key : string) (w : World)
  : option Coordinator.t :=
  hass_data w ≫= λ d, coordinators d !! key.

Section Announcements.
Context `{Const}.

(** An announcement that carries no location: the callback raises on it
    and the wait goes on. *)
Definition unlocated (p : Z * Stimulus) : bool :=
  match p.2 with
  | Announce info => bool_decide (info !! ATTR_SSDP_LOCATION = None)
  | Interrupt _ => false
  end.

End Announcements.

(** * Properties *)

Lemma update_not_register c : is_entry_update c = true → is_register c = false.
Proof. by destruct c. Qed.

Lemma update_not_cancel c : is_entry_update c = true → is_cancel c = false.
Proof. by destruct c. Qed.

Lemma update_not_start c : is_entry_update c = true → is_start c = false.
Proof. by destruct c. Qed.

Lemma update_not_setup_platforms c :
  is_entry_update c = true → is_setup_platforms c = false.
Proof. by destruct c. Qed.

Create HintDb calls.
#[local] Hint Resolve update_not_register update_not_cancel update_not_start
  update_not_setup_platforms : calls.

Lemma count_app p cs cs' : count p (cs ++ cs') = (count p cs + count p cs')%nat.
Proof. induction cs as [|c cs IH]; cbn; [done|]. rewrite IH. lia. Qed.

(** ** Running the monad *)

Lemma bind_run {A B} (m : M A) (f : A → M B) (w : World) :
  (m ≫= f) w =
  match result (m w) with
  | Return a => prepend (calls (m w)) (f a (world (m w)))
  | Raise e => {| result := Raise e; world := world (m w); calls := calls (m w) |}
  end.
Proof. reflexivity. Qed.

Lemma ret_run {A} (a : A) w :
  @mret M _ A a w = {| result := Return a; world := w; calls := [] |}.
Proof. reflexivity. Qed.

Lemma raise_run {A} e w :
  @raise A e w = {| result := Raise e; world := w; calls := [] |}.
Proof. reflexivity. Qed.

Lemma lift_run {A} (r : Result A) w :
  lift r w = {| result := r; world := w; calls := [] |}.
Proof. reflexivity. Qed.

Lemma get_run w : get w = {| result := Return w; world := w; calls := [] |}.
Proof. reflexivity. Qed.

Lemma put_run w' w :
  put w' w = {| result := Return tt; world := w'; calls := [] |}.
Proof. reflexivity. Qed.

Lemma call_run c w :
  call c w = {| result := Return tt; world := w; calls := [c] |}.
Proof. reflexivity. Qed.

Lemma get_entry_run w :
  get_entry w = {| result := Return (config_entry w); world := w; calls := [] |}.
Proof. reflexivity. Qed.

Lemma subscript_Some {V} (d : gmap string V) k v w :
  d !! k = Some v →
  subscript d k w = {| result := Return v; world := w; calls := [] |}.
Proof. intros E. unfold subscript. by rewrite E. Qed.

Lemma subscript_None {V} (d : gmap string V) k w :
  d !! k = None →
  subscript d k w = {| result := Raise (KeyError k); world := w; calls := [] |}.
Proof. intros E. unfold subscript. by rewrite E. Qed.

Lemma prepend_nil {A} (o : Outcome A) : prepend [] o = o.
Proof. by destruct o. Qed.

Lemma prepend_prepend {A} cs cs' (o : Outcome A) :
  prepend cs (prepend cs' o) = prepend (cs ++ cs') o.
Proof. unfold prepend. cbn [result world calls]. by rewrite app_assoc. Qed.

Lemma prepend_mk {A} cs (r : Result A) w cs' :
  prepend cs {| result := r; world := w; calls := cs' |} =
  {| result := r; world := w; calls := cs ++ cs' |}.
Proof. reflexivity. Qed.

Create Rewrite HintDb run.
#[local] Hint Rewrite @ret_run @raise_run @lift_run get_run put_run call_run
  get_entry_run @prepend_nil @prepend_mk @prepend_prepend : run.

(** Evaluate the primitives in sight and project the records. *)
Ltac reduce :=
  autorewrite with run; cbn [result world calls app]; cbn beta.

(** Project the fields of explicit records. *)
Ltac records :=
  cbn [config_entry hass_data ssdp_callbacks
       ConfigEntry.unique_id ConfigEntry.data ConfigEntry.entry_id
       ConfigEntry.options
       domain_config domain_devices domain_local_ip coordinators].

(** One step of a run: open the outermost bind and evaluate what
    surfaces. *)
Ltac step := rewrite bind_run; cbn beta; reduce.

Ltac steps := repeat step.

Lemma register_callback_run usn w :
  register_callback usn w =
  {| result := Return tt;
     world := set_ssdp_callbacks (usn :: ssdp_callbacks w) w;
     calls := [SsdpRegister usn] |}.
Proof. unfold register_callback. steps. reflexivity. Qed.

Lemma cancel_callback_run usn w :
  cancel_callback usn w =
  {| result := Return tt;
     world := set_ssdp_callbacks (remove_first usn (ssdp_callbacks w)) w;
     calls := [SsdpCancel usn] |}.
Proof. unfold cancel_callback. steps. reflexivity. Qed.

Lemma register_then_cancel usn w :
  set_ssdp_callbacks
    (remove_first usn (ssdp_callbacks (set_ssdp_callbacks (usn :: ssdp_callbacks w) w)))
    (set_ssdp_callbacks (usn :: ssdp_callbacks w) w) = w.
Proof.
  destruct w as [hd ce cbs]. unfold set_ssdp_callbacks.
  cbn [ssdp_callbacks hass_data config_entry remove_first].
  by rewrite decide_True.
Qed.

(** Reading a world after an update of one of its parts. *)
Lemma hass_data_set_entry e w : hass_data (set_entry e w) = hass_data w.
Proof. reflexivity. Qed.

Lemma config_entry_set_entry e w : config_entry (set_entry e w) = e.
Proof. reflexivity. Qed.

Lemma ssdp_callbacks_set_entry e w :
  ssdp_callbacks (set_entry e w) = ssdp_callbacks w.
Proof. reflexivity. Qed.

Lemma hass_data_set_hass_data d w : hass_data (set_hass_data d w) = d.
Proof. reflexivity. Qed.

Lemma config_entry_set_hass_data d w :
  config_entry (set_hass_data d w) = config_entry w.
Proof. reflexivity. Qed.

Lemma ssdp_callbacks_set_hass_data d w :
  ssdp_callbacks (set_hass_data d w) = ssdp_callbacks w.
Proof. reflexivity. Qed.

#[local] Hint Rewrite hass_data_set_entry config_entry_set_entry
  ssdp_callbacks_set_entry hass_data_set_hass_data config_entry_set_hass_data
  ssdp_callbacks_set_hass_data : run.

Section Facts.
Context `{Const}.

(** ** The discovery wait *)

Lemma discover_run usn env w :
  discover usn env w =
  {| result := discover_result env; world := w;
     calls := [SsdpRegister usn; WaitFor 10; SsdpCancel usn] |}.
Proof.
  unfold discover, discover_result. step.
  rewrite register_callback_run. reduce.
  unfold try_except_finally. steps.
  rewrite !cancel_callback_run.
  destruct (wait_for 10 (feed env) new_waiter) as [wt|e]; reduce.
  - by rewrite register_then_cancel.
  - destruct e; reduce; by rewrite register_then_cancel.
Qed.

Lemma async_setup_entry_run env w udn st :
  ConfigEntry.data (config_entry w) !! CONFIG_ENTRY_UDN = Some udn →
  ConfigEntry.data (config_entry w) !! CONFIG_ENTRY_ST = Some st →
  async_setup_entry env w =
  prepend [SsdpRegister (udn ++ "::" ++ st); WaitFor 10;
           SsdpCancel (udn ++ "::" ++ st)]
    match discover_result env with
    | Return wt => after_discovery env wt w
    | Raise e => {| result := Raise e; world := w; calls := [] |}
    end.
Proof.
  intros Hudn Hst. unfold async_setup_entry. step.
  step. rewrite (subscript_Some _ _ _ _ Hudn). reduce.
  step. rewrite (subscript_Some _ _ _ _ Hst). reduce.
  step. rewrite discover_run. reduce.
  destruct (discover_result env); reduce; reflexivity.
Qed.

(** Without a stored udn or service type the function stops at the
    subscript, before any collaborator is called. *)
Lemma async_setup_entry_no_udn env w :
  ConfigEntry.data (config_entry w) !! CONFIG_ENTRY_UDN = None →
  async_setup_entry env w =
  {| result := Raise (KeyError CONFIG_ENTRY_UDN); world := w; calls := [] |}.
Proof.
  intros Hudn. unfold async_setup_entry. step. step.
  rewrite (subscript_None _ _ _ Hudn). by reduce.
Qed.

Lemma async_setup_entry_no_st env w udn :
  ConfigEntry.data (config_entry w) !! CONFIG_ENTRY_UDN = Some udn →
  ConfigEntry.data (config_entry w) !! CONFIG_ENTRY_ST = None →
  async_setup_entry env w =
  {| result := Raise (KeyError CONFIG_ENTRY_ST); world := w; calls := [] |}.
Proof.
  intros Hudn Hst. unfold async_setup_entry. step. step.
  rewrite (subscript_Some _ _ _ _ Hudn). reduce. step.
  rewrite (subscript_None _ _ _ Hst). by reduce.
Qed.

(** *** Reconciliation of the entry *)

Lemma reconcile_run device w :
  reconcile device w =
  {| result := Return tt;
     world := set_entry (reconciled device (config_entry w)) w;
     calls := reconcile_calls device (config_entry w) |}.
Proof.
  destruct w as [hd [eid uid dat opt] cbs].
  unfold reconcile, reconciled, reconcile_calls, hostname_stale,
    with_unique_id, async_update_entry_unique_id, async_update_entry_data,
    set_entry.
  step. cbn [config_entry ConfigEntry.unique_id].
  destruct (truthy uid); cbn [negb]; steps; records;
    (case_decide;
     [rewrite !bool_decide_eq_true_2 by done
     |rewrite !bool_decide_eq_false_2 by done]);
    steps; reduce; records; reflexivity.
Qed.

(** *** Registry entry, coordinator and first refresh *)

Lemma store_coordinator_run key c w d :
  hass_data w = Some d →
  store_coordinator key c w =
  {| result := Return tt;
     world := set_hass_data
                (Some (set_coordinators (<[key := c]> (coordinators d)) d)) w;
     calls := [] |}.
Proof.
  intros Hd. unfold store_coordinator. step. rewrite Hd. by reduce.
Qed.

Lemma store_coordinator_none key c w :
  hass_data w = None →
  store_coordinator key c w =
  {| result := Raise (KeyError DOMAIN); world := w; calls := [] |}.
Proof.
  intros Hd. unfold store_coordinator. step. rewrite Hd. by reduce.
Qed.

Lemma start_session_run env device w :
  start_session env device w =
  match hass_data w with
  | None =>
      {| result := Raise (KeyError DOMAIN); world := w;
         calls := [registry_call device (config_entry w)] |}
  | Some d =>
      match _async_update_data (status_fails_first env) (traffic_data env)
              (status env) with
      | Return _ =>
          {| result := Return true;
             world := session_world env device d w;
             calls := [registry_call device (config_entry w); FirstRefresh;
                       SetupPlatforms PLATFORMS; DeviceStart device] |}
      | Raise e =>
          {| result := Raise (ConfigEntryNotReady e);
             world := session_world env device d w;
             calls := [registry_call device (config_entry w); FirstRefresh] |}
      end
  end.
Proof.
  unfold start_session, async_config_entry_first_refresh, session_world,
    registry_call, refresh_cycle.
  step. step. step.
  destruct (hass_data w) as [d|] eqn:Hd.
  - rewrite (store_coordinator_run _ _ _ _ Hd). reduce.
    step. step. step.
    erewrite store_coordinator_run by reflexivity. reduce.
    unfold set_hass_data, set_coordinators. records.
    rewrite insert_insert_eq.
    destruct (_async_update_data _ _ _) as [snapshot|e]; reduce.
    + repeat step. reflexivity.
    + reflexivity.
  - rewrite bind_run, (store_coordinator_none _ _ _ Hd). reduce. reflexivity.
Qed.

(** *** From the device creation to the end *)

Lemma after_discovery_run env wt w :
  after_discovery env wt w =
  match discovery_info wt with
  | None => {| result := Raise TypeError; world := w; calls := [] |}
  | Some info =>
      match info !! ATTR_SSDP_LOCATION with
      | None => {| result := Raise (KeyError ATTR_SSDP_LOCATION);
                   world := w; calls := [] |}
      | Some location =>
          prepend [CreateDevice location]
            match create_device env location with
            | Raise e => {| result := Raise e; world := w; calls := [] |}
            | Return device =>
                prepend (reconcile_calls device (config_entry w))
                  (start_session env device
                     (set_entry (reconciled device (config_entry w)) w))
            end
      end
  end.
Proof.
  unfold after_discovery, discovered_location. step.
  destruct (discovery_info wt) as [info|]; [|by reduce].
  destruct (info !! ATTR_SSDP_LOCATION) as [location|] eqn:Hloc.
  - rewrite (subscript_Some _ _ _ _ Hloc). reduce. step. step.
    destruct (create_device env location) as [device|e]; reduce; [|done].
    step. rewrite reconcile_run. reduce. done.
  - rewrite (subscript_None _ _ _ Hloc). by reduce.
Qed.

(** *** What the wait can return *)

Lemma device_discovered_event_set info wt :
  device_discovered_event (device_discovered info wt) = true →
  device_discovered_event wt = false →
  ∃ location, info !! ATTR_SSDP_LOCATION = Some location
              ∧ discovery_info (device_discovered info wt) = Some info.
Proof.
  unfold device_discovered.
  destruct (info !! ATTR_SSDP_LOCATION) as [location|]; cbn.
  - eauto.
  - congruence.
Qed.

Lemma device_discovered_event_unset info wt :
  device_discovered_event (device_discovered info wt) = false →
  device_discovered info wt = wt.
Proof.
  unfold device_discovered.
  destruct (info !! ATTR_SSDP_LOCATION); cbn; [discriminate|done].
Qed.

(** Whatever is dispatched before the task runs again, the waiter ends
    up holding an announcement with a location: the one it held or one of
    those dispatched. *)
Lemma settle_Return t stimuli wt0 wt info0 location0 :
  discovery_info wt0 = Some info0 →
  info0 !! ATTR_SSDP_LOCATION = Some location0 →
  settle t stimuli wt0 = Return wt →
  ∃ info location,
    (info = info0 ∨ (t, Announce info) ∈ stimuli)
    ∧ discovery_info wt = Some info
    ∧ info !! ATTR_SSDP_LOCATION = Some location.
Proof.
  revert wt0 info0 location0.
  induction stimuli as [|[t' s] rest IH]; intros wt0 info0 location0 Hinfo0 Hloc0;
    cbn.
  - intros [= <-]. eauto 6.
  - destruct (Z.eqb_spec t' t) as [->|_]; [|intros [= <-]; eauto 6].
    destruct s as [info'|e]; [|discriminate].
    unfold device_discovered.
    destruct (info' !! ATTR_SSDP_LOCATION) as [location'|] eqn:Hloc'.
    + intros Hrest.
      destruct (IH {| discovery_info := Some info';
                      device_discovered_event := true |}
                  info' location' eq_refl Hloc' Hrest)
        as (info & location & [->|Hin] & ?).
      * exists info', location. split; [right; by left|done].
      * exists info, location. split; [right; by right|done].
    + intros Hrest.
      destruct (IH _ info0 location0 Hinfo0 Hloc0 Hrest)
        as (info & location & [->|Hin] & ?).
      * exists info0, location. split; [by left|done].
      * exists info, location. split; [right; by right|done].
Qed.

(** A wait that returns was released by an announcement that arrived
    before the timeout and carries a location. *)
Lemma wait_for_Return timeout stimuli wt0 wt :
  device_discovered_event wt0 = false →
  wait_for timeout stimuli wt0 = Return wt →
  ∃ t info location,
    (t, Announce info) ∈ stimuli ∧ (t < timeout)%Z
    ∧ discovery_info wt = Some info
    ∧ info !! ATTR_SSDP_LOCATION = Some location.
Proof.
  intros Hunset. induction stimuli as [|[t s] rest IH]; cbn; [discriminate|].
  destruct (Z.leb_spec timeout t) as [Hle|Hlt]; [discriminate|].
  destruct s as [info|e]; [|discriminate].
  destruct (device_discovered_event (device_discovered info wt0)) eqn:Hev.
  - intros Hsettled.
    destruct (device_discovered_event_set _ _ Hev Hunset) as (loc & Hloc & Hinfo).
    destruct (settle_Return _ _ _ _ _ _ Hinfo Hloc Hsettled)
      as (info' & loc' & [->|Hin] & ?).
    + exists t, info, loc'. split; [by left|done].
    + exists t, info', loc'. split; [by right|done].
  - rewrite (device_discovered_event_unset _ _ Hev). intros Hrest.
    destruct (IH Hrest) as (t' & info' & loc & Hin & ?).
    exists t', info', loc. split; [by right|done].
Qed.

(** Nothing arrives before the timeout: the wait times out. *)
Lemma wait_for_quiet timeout stimuli wt :
  Forall (λ p, (timeout ≤ p.1)%Z) stimuli →
  wait_for timeout stimuli wt = Raise TimeoutError.
Proof.
  destruct 1 as [|[t s] rest Ht _]; cbn in *; [done|].
  by rewrite (proj2 (Z.leb_le _ _) Ht).
Qed.

(** *** Case analysis of a run *)

(** The calls of [reconcile] are entry updates, at most one of each
    kind. *)
Lemma reconcile_calls_updates device e :
  Forall (λ c, is_entry_update c = true) (reconcile_calls device e).
Proof.
  unfold reconcile_calls.
  destruct (truthy _), (hostname_stale _ _); cbn; repeat constructor.
Qed.

Lemma count_updates_only p cs :
  (∀ c, is_entry_update c = true → p c = false) →
  Forall (λ c, is_entry_update c = true) cs → count p cs = 0%nat.
Proof.
  intros Hp. induction 1 as [|c cs Hc _ IH]; cbn; [done|].
  by rewrite (Hp c Hc), IH.
Qed.

Lemma reconcile_calls_count p device e :
  (∀ c, is_entry_update c = true → p c = false) →
  count p (reconcile_calls device e) = 0%nat.
Proof. eauto using count_updates_only, reconcile_calls_updates. Qed.

(** Splits a run of [after_discovery] into its exit paths. *)
Ltac exit_paths env wt w :=
  rewrite after_discovery_run;
  destruct (discovery_info wt) as [?info|] eqn:?Hinfo;
    [destruct (_ !! ATTR_SSDP_LOCATION) as [?location|] eqn:?Hloc;
       [destruct (create_device env _) as [?device|?e] eqn:?Hdev;
          [rewrite start_session_run, hass_data_set_entry;
           destruct (hass_data w) as [?d|] eqn:?Hd;
             [destruct (_async_update_data _ _ _) as [?snapshot|?e] eqn:?Hupd|]
          |]
       |]
    |];
  reduce.

(** Splits a run of [async_setup_entry] into its exit paths. *)
Ltac setup_paths env w :=
  let Hudn := fresh "Hudn" in
  let Hst := fresh "Hst" in
  let wt := fresh "wt" in
  destruct (ConfigEntry.data (config_entry w) !! CONFIG_ENTRY_UDN)
    as [?udn|] eqn:Hudn;
    [destruct (ConfigEntry.data (config_entry w) !! CONFIG_ENTRY_ST)
       as [?st|] eqn:Hst;
       [rewrite (async_setup_entry_run env w _ _ Hudn Hst);
        destruct (discover_result env) as [wt|?e] eqn:?Hdisc;
          [exit_paths env wt w|]
       |rewrite (async_setup_entry_no_st env w _ Hudn Hst)]
    |rewrite (async_setup_entry_no_udn env w Hudn)];
  unfold session_world, registry_call; reduce.

Lemma update_is_late c : is_entry_update c = true → is_late c = true.
Proof. by destruct c. Qed.

Lemma after_discovery_late env wt w :
  Forall (λ c, is_late c = true) (calls (after_discovery env wt w)).
Proof.
  exit_paths env wt w; unfold registry_call;
    repeat first [apply Forall_cons; split; [reflexivity|]
                 |apply Forall_nil_2
                 |eapply Forall_impl;
                    [apply reconcile_calls_updates|apply update_is_late]
                 |apply Forall_app; split].
Qed.

Lemma count_late p cs :
  (∀ c, is_late c = true → p c = false) →
  Forall (λ c, is_late c = true) cs → count p cs = 0%nat.
Proof.
  intros Hp. induction 1 as [|c cs Hc _ IH]; cbn; [done|].
  by rewrite (Hp c Hc), IH.
Qed.

Lemma late_not_register c : is_late c = true → is_register c = false.
Proof. by destruct c. Qed.

Lemma late_not_cancel c : is_late c = true → is_cancel c = false.
Proof. by destruct c. Qed.

Lemma after_discovery_ssdp_callbacks env wt w :
  ssdp_callbacks (world (after_discovery env wt w)) = ssdp_callbacks w.
Proof. exit_paths env wt w; unfold session_world; by reduce. Qed.

(** C4. Every invocation of the discovery wait registers the discovery
    callback exactly once and cancels it exactly once, whatever ends the
    wait (an announcement, the timeout, or another exception thrown into
    it) and whatever happens afterwards: the registration is the first
    call, the cancellation follows the wait, and the list of registered
    callbacks is the same after the run as before it. *)
Theorem C4_discovery_subscription_scoped env w udn st :
  ConfigEntry.data (config_entry w) !! CONFIG_ENTRY_UDN = Some udn →
  ConfigEntry.data (config_entry w) !! CONFIG_ENTRY_ST = Some st →
  count is_register (calls (async_setup_entry env w)) = 1%nat
  ∧ count is_cancel (calls (async_setup_entry env w)) = 1%nat
  ∧ (∃ rest, calls (async_setup_entry env w)
             = SsdpRegister (udn ++ "::" ++ st) :: WaitFor 10
               :: SsdpCancel (udn ++ "::" ++ st) :: rest)
  ∧ ssdp_callbacks (world (async_setup_entry env w)) = ssdp_callbacks w.
Proof.
  intros Hudn Hst. rewrite (async_setup_entry_run env w udn st Hudn Hst).
  destruct (discover_result env) as [wt|e]; reduce.
  - pose proof (after_discovery_late env wt w) as Hlate.
    unfold prepend. cbn [result world calls app count is_register is_cancel].
    rewrite (count_late is_register _ late_not_register Hlate),
      (count_late is_cancel _ late_not_cancel Hlate),
      after_discovery_ssdp_callbacks.
    eauto.
  - cbn. eauto.
Qed.

Lemma discover_result_Return env wt :
  discover_result env = Return wt →
  wait_for 10 (feed env) new_waiter = Return wt.
Proof.
  unfold discover_result.
  destruct (wait_for 10 (feed env) new_waiter) as [wt'|[]]; congruence.
Qed.

Lemma discover_result_quiet env :
  Forall (λ p, (10 ≤ p.1)%Z) (feed env) →
  discover_result env = Raise (ConfigEntryNotReady TimeoutError).
Proof.
  intros Hquiet. unfold discover_result. by rewrite wait_for_quiet.
Qed.

(** C8. For an entry with stored udn and service type, the filter handed
    to the discovery registration is the udn, the separator "::" and the
    service type, concatenated; the registration is the first call of the
    run and the only registration. *)
Theorem C8_usn_is_udn_sep_st env w udn st :
  ConfigEntry.data (config_entry w) !! CONFIG_ENTRY_UDN = Some udn →
  ConfigEntry.data (config_entry w) !! CONFIG_ENTRY_ST = Some st →
  ∃ rest,
    calls (async_setup_entry env w) = SsdpRegister (udn ++ "::" ++ st) :: rest
    ∧ count is_register rest = 0%nat.
Proof.
  intros Hudn Hst. rewrite (async_setup_entry_run env w udn st Hudn Hst).
  unfold prepend. cbn [calls app]. eexists. split; [reflexivity|].
  cbn [count is_register Nat.add].
  destruct (discover_result env) as [wt|e]; [|done].
  apply (count_late _ _ late_not_register), after_discovery_late.
Qed.

(** C5, as the code has it. The wait is always started with a budget of
    10 seconds, whatever the entry and the environment hold, and when
    nothing reaches the wait before those 10 seconds are over the setup
    fails with [ConfigEntryNotReady] (caused by the timeout), after
    cancelling the registration and before anything else is called. *)
Theorem C5_timeout_fixed_not_ready env w :
  (∀ t, WaitFor t ∈ calls (async_setup_entry env w) → t = 10%Z)
  ∧ (∀ udn st,
       ConfigEntry.data (config_entry w) !! CONFIG_ENTRY_UDN = Some udn →
       ConfigEntry.data (config_entry w) !! CONFIG_ENTRY_ST = Some st →
       Forall (λ p, (10 ≤ p.1)%Z) (feed env) →
       async_setup_entry env w =
       {| result := Raise (ConfigEntryNotReady TimeoutError);
          world := w;
          calls := [SsdpRegister (udn ++ "::" ++ st); WaitFor 10;
                    SsdpCancel (udn ++ "::" ++ st)] |}).
Proof.
  split.
  - intros t Hin.
    destruct (ConfigEntry.data (config_entry w) !! CONFIG_ENTRY_UDN)
      as [udn|] eqn:Hudn;
      [|rewrite (async_setup_entry_no_udn env w Hudn) in Hin;
        by apply elem_of_nil in Hin].
    destruct (ConfigEntry.data (config_entry w) !! CONFIG_ENTRY_ST)
      as [st|] eqn:Hst;
      [|rewrite (async_setup_entry_no_st env w _ Hudn Hst) in Hin;
        by apply elem_of_nil in Hin].
    rewrite (async_setup_entry_run env w _ _ Hudn Hst) in Hin.
    unfold prepend in Hin. cbn [calls app] in Hin.
    apply elem_of_cons in Hin as [?|Hin]; [done|].
    apply elem_of_cons in Hin as [[= ->]|Hin]; [done|].
    apply elem_of_cons in Hin as [?|Hin]; [done|].
    destruct (discover_result env) as [wt|e];
      [|by apply elem_of_nil in Hin].
    pose proof (after_discovery_late env wt w) as Hlate.
    rewrite Forall_forall in Hlate. by apply Hlate in Hin.
  - intros udn st Hudn Hst Hquiet.
    rewrite (async_setup_entry_run env w udn st Hudn Hst),
      (discover_result_quiet env Hquiet).
    by reduce.
Qed.

(** *** The entry after a run *)

Lemma truthy_Some u : u ≠ "" → truthy (Some u) = true.
Proof.
  intros Hu. cbn. destruct (String.eqb_spec u ""); [done|reflexivity].
Qed.

(** Whatever holds of the entry before the run and of the reconciled
    entry holds of the entry after the run. *)
Lemma async_setup_entry_entry (P : ConfigEntry.t → Prop) env w :
  P (config_entry w) →
  (∀ device, P (reconciled device (config_entry w))) →
  P (config_entry (world (async_setup_entry env w))).
Proof. intros Hbefore Hrec. setup_paths env w; auto. Qed.

(** The unique-id write is made only for a falsy unique id. *)
Lemma reconcile_calls_unique_id device e :
  truthy (ConfigEntry.unique_id e) = true →
  count is_unique_id_write (reconcile_calls device e) = 0%nat.
Proof.
  intros Ht. unfold reconcile_calls. rewrite Ht.
  by destruct (hostname_stale device e).
Qed.

(** C10. An entry that has a non-empty unique id when setup begins keeps
    it: the entry's unique id is the same after [async_setup_entry],
    whatever the device reports and however the run ends, and no
    unique-id write is requested. *)
Theorem C10_unique_id_kept env w u :
  ConfigEntry.unique_id (config_entry w) = Some u →
  u ≠ "" →
  ConfigEntry.unique_id (config_entry (world (async_setup_entry env w)))
  = Some u
  ∧ count is_unique_id_write (calls (async_setup_entry env w)) = 0%nat.
Proof.
  intros Hu Hne. pose proof (truthy_Some u Hne) as Ht. split.
  - apply async_setup_entry_entry; [done|].
    intros device. unfold reconciled, with_unique_id.
    cbn [ConfigEntry.unique_id]. by rewrite Hu, Ht.
  - setup_paths env w; cbn [count is_unique_id_write Nat.add];
      rewrite ?count_app, ?reconcile_calls_unique_id by (by rewrite Hu);
      done.
Qed.

(** *** The stored hostname *)

(** The dict display [{k: v, **d}] leaves a [k] that [d] already has at
    the value [d] gives it. *)
Lemma dict_display_spread_present {V} k (v old : V) (d : gmap string V) :
  d !! k = Some old → dict_display_spread k v d = d.
Proof.
  intros Hk. unfold dict_display_spread, dict_update.
  apply map_eq. intros i. rewrite lookup_union.
  destruct (decide (k = i)) as [<-|Hne].
  - rewrite Hk, lookup_insert_eq. done.
  - rewrite lookup_insert_ne, lookup_empty by done.
    by destruct (d !! i).
Qed.

Lemma dict_display_spread_absent {V} k (v : V) (d : gmap string V) :
  d !! k = None → dict_display_spread k v d !! k = Some v.
Proof.
  intros Hk. unfold dict_display_spread, dict_update.
  by rewrite lookup_union_r, lookup_insert_eq.
Qed.

(** A hostname stored in the entry is still the stored hostname after
    setup, also when the device reports another one. *)
Lemma stored_hostname_survives env w old :
  ConfigEntry.data (config_entry w) !! CONFIG_ENTRY_HOSTNAME = Some old →
  ConfigEntry.data (config_entry (world (async_setup_entry env w)))
    !! CONFIG_ENTRY_HOSTNAME = Some old.
Proof.
  intros Hold. apply async_setup_entry_entry; [done|].
  intros device. unfold reconciled. cbn [ConfigEntry.data].
  destruct (hostname_stale device (config_entry w)); [|done].
  by rewrite (dict_display_spread_present _ _ _ _ Hold).
Qed.

(** X21. With the stored hostname equal to the one every reachable
    device reports, no data write is requested. *)
Lemma current_hostname_no_write env w h :
  ConfigEntry.data (config_entry w) !! CONFIG_ENTRY_HOSTNAME = Some h →
  (∀ location device,
     create_device env location = Return device → Device.hostname device = h) →
  count is_data_write (calls (async_setup_entry env w)) = 0%nat.
Proof.
  intros Hh Hdevs.
  assert (∀ location device, create_device env location = Return device →
            count is_data_write (reconcile_calls device (config_entry w)) = 0%nat)
    as Hrec.
  { intros location device Hdev. unfold reconcile_calls, hostname_stale.
    rewrite bool_decide_eq_false_2.
    - by destruct (truthy _).
    - rewrite Hh, (Hdevs _ _ Hdev). intros [?|?]; done. }
  setup_paths env w; cbn [count is_data_write Nat.add];
    rewrite ?count_app; erewrite ?Hrec by eassumption; done.
Qed.

(** X20. An entry without a stored hostname has the hostname of the
    created device after a successful setup. *)
Lemma missing_hostname_adopted env w b :
  ConfigEntry.data (config_entry w) !! CONFIG_ENTRY_HOSTNAME = None →
  result (async_setup_entry env w) = Return b →
  ∃ location device,
    create_device env location = Return device
    ∧ ConfigEntry.data (config_entry (world (async_setup_entry env w)))
        !! CONFIG_ENTRY_HOSTNAME = Some (Device.hostname device).
Proof.
  intros Hnone. setup_paths env w; intros Hret; try discriminate Hret.
  eexists _, _. split; [eassumption|].
  unfold reconciled, hostname_stale. cbn [ConfigEntry.data].
  rewrite bool_decide_eq_true_2 by auto.
  by apply dict_display_spread_absent.
Qed.

(** *** Order of the steps *)

Lemma last_two (pre cs : list Call) x y :
  last (pre ++ cs ++ [x; y]) = Some y.
Proof.
  change [x; y] with ([x] ++ [y])%list. rewrite !app_assoc. apply last_snoc.
Qed.

Lemma first_refresh_not_update device e :
  FirstRefresh ∉ reconcile_calls device e.
Proof.
  intros Hin. pose proof (reconcile_calls_updates device e) as Hall.
  rewrite Forall_forall in Hall. by apply Hall in Hin.
Qed.

(** C6. A setup that succeeds has made its calls in this order: the
    registration, the wait and the cancellation; the creation of the
    device from the location of an announcement that arrived in time;
    the entry updates of the reconciliation; the registry upsert; the
    first refresh, which succeeded; the registration of the platforms;
    the start of the device.  And when the first refresh fails, setup
    ends with an error, with no platform registered and no device
    started; if it got as far as the first refresh, that refresh is its
    last call and the error is [ConfigEntryNotReady]. *)
Theorem C6_setup_order env w :
  (∀ b, result (async_setup_entry env w) = Return b →
     ∃ usn t info location device updates,
       (t, Announce info) ∈ feed env ∧ (t < 10)%Z
       ∧ info !! ATTR_SSDP_LOCATION = Some location
       ∧ create_device env location = Return device
       ∧ Forall (λ c, is_entry_update c = true) updates
       ∧ is_raise (_async_update_data (status_fails_first env)
                     (traffic_data env) (status env)) = false
       ∧ calls (async_setup_entry env w) =
         ([SsdpRegister usn; WaitFor 10; SsdpCancel usn; CreateDevice location]
          ++ updates
          ++ [RegistryGetOrCreate (ConfigEntry.entry_id (config_entry w))
                (Device.udn device) (Device.name device)
                (Device.manufacturer device) (Device.model_name device);
              FirstRefresh; SetupPlatforms PLATFORMS; DeviceStart device])%list)
  ∧ (∀ e, _async_update_data (status_fails_first env) (traffic_data env)
            (status env) = Raise e →
       is_raise (result (async_setup_entry env w)) = true
       ∧ count is_setup_platforms (calls (async_setup_entry env w)) = 0%nat
       ∧ count is_start (calls (async_setup_entry env w)) = 0%nat
       ∧ (FirstRefresh ∈ calls (async_setup_entry env w) →
          result (async_setup_entry env w) = Raise (ConfigEntryNotReady e)
          ∧ last (calls (async_setup_entry env w)) = Some FirstRefresh)).
Proof.
  split.
  - intros b. setup_paths env w; intros Hret; try discriminate Hret.
    apply discover_result_Return, wait_for_Return in Hdisc as
      (t & info' & location' & Hin & Hlt & Hinfo' & Hloc'); [|done].
    assert (info' = info) as -> by congruence.
    exists (udn ++ "::" ++ st), t, info, location, device,
      (reconcile_calls device (config_entry w)).
    split_and!; try done.
    apply reconcile_calls_updates.
  - intros e Hfail.
    setup_paths env w;
      cbn [is_raise count is_setup_platforms is_start Nat.add];
      rewrite ?count_app, ?reconcile_calls_count by auto with calls;
      try (rewrite Hfail in Hupd; simplify_eq);
      (split_and!; [done..|]); intros Hin;
      repeat (apply elem_of_cons in Hin as [?|Hin]; [done|]);
      try (by apply elem_of_nil in Hin).
    + split; [done|].
      apply (last_two [_; _; _; _]).
    + apply elem_of_app in Hin as [Hin|Hin].
      * by apply first_refresh_not_update in Hin.
      * repeat (apply elem_of_cons in Hin as [?|Hin]; [done|]).
        by apply elem_of_nil in Hin.
Qed.

(** ** Component setup *)

(** C9. After [async_setup] the stored local IP is the configured
    override when the component's configuration has one, and the detected
    source IP otherwise. *)
Theorem C9_configured_local_ip_wins config source_ip w :
  stored_local_ip (world (async_setup config source_ip w))
  = Some match config !! DOMAIN ≫= (λ conf, conf !! CONF_LOCAL_IP) with
         | Some configured => configured
         | None => source_ip
         end.
Proof.
  unfold async_setup, stored_local_ip. steps.
  destruct (decide (is_Some (config !! DOMAIN))) as [Hdom|Hdom]; steps;
    cbn [fmap option_fmap option_map]; f_equal;
    unfold dict_get; by destruct (config !! DOMAIN) as [conf|].
Qed.

(** ** Teardown *)

Lemma async_unload_entry_run env w d :
  hass_data w = Some d →
  async_unload_entry env w =
  {| result := Return (platforms_unloaded env);
     world := set_hass_data
                (Some (set_coordinators
                         (delete (ConfigEntry.entry_id (config_entry w))
                            (coordinators d)) d)) w;
     calls := match coordinators d !! ConfigEntry.entry_id (config_entry w) with
              | Some coordinator =>
                  [DeviceStop (Coordinator.device coordinator);
                   UnloadPlatforms PLATFORMS]
              | None => [UnloadPlatforms PLATFORMS]
              end |}.
Proof.
  intros Hd. unfold async_unload_entry. step. step. step.
  rewrite Hd. reduce. step. step.
  destruct (coordinators d !! _) as [coordinator|]; steps; reflexivity.
Qed.

(** C7. Unloading the same entry twice in a row raises nothing: both
    calls return what the platform unload returns.  The first call takes
    the coordinator out of the store and, when there was one, stops its
    device before it unloads the platforms; the second call finds no
    coordinator stored, makes no stop call, and the two calls together
    stop the device at most once. *)
Theorem C7_unload_twice env1 env2 w d :
  hass_data w = Some d →
  result (async_unload_entry env1 w) = Return (platforms_unloaded env1)
  ∧ result (async_unload_entry env2 (world (async_unload_entry env1 w)))
    = Return (platforms_unloaded env2)
  ∧ calls (async_unload_entry env2 (world (async_unload_entry env1 w)))
    = [UnloadPlatforms PLATFORMS]
  ∧ (count is_stop
       (calls (async_unload_entry env1 w)
        ++ calls (async_unload_entry env2 (world (async_unload_entry env1 w))))
     ≤ 1)%nat
  ∧ calls (async_unload_entry env1 w)
    = match coordinators d !! ConfigEntry.entry_id (config_entry w) with
      | Some coordinator =>
          [DeviceStop (Coordinator.device coordinator);
           UnloadPlatforms PLATFORMS]
      | None => [UnloadPlatforms PLATFORMS]
      end
  ∧ stored_coordinator (ConfigEntry.entry_id (config_entry w))
      (world (async_unload_entry env1 w)) = None
  ∧ stored_coordinator (ConfigEntry.entry_id (config_entry w))
      (world (async_unload_entry env2 (world (async_unload_entry env1 w))))
    = None.
Proof.
  intros Hd. rewrite (async_unload_entry_run env1 w d Hd). reduce.
  erewrite async_unload_entry_run by reflexivity.
  unfold stored_coordinator, set_coordinators, set_hass_data. records. reduce.
  cbn [mbind option_bind]. records.
  rewrite !lookup_delete_eq.
  split_and!; try done.
  - rewrite count_app. destruct (coordinators d !! _); cbn; lia.
  - cbn [mbind option_bind coordinators]. apply lookup_delete_eq.
Qed.

(** ** Further properties of [async_setup] *)

Lemma async_setup_run config source_ip w :
  async_setup config source_ip w =
  {| result := Return true;
     world := set_hass_data
                (Some {| domain_config := dict_get config DOMAIN ∅;
                         domain_devices := ∅;
                         domain_local_ip :=
                           dict_get (dict_get config DOMAIN ∅) CONF_LOCAL_IP
                             source_ip;
                         coordinators := ∅ |}) w;
     calls := GetSourceIp :: match config !! DOMAIN with
                             | Some _ => [FlowInit]
                             | None => []
                             end |}.
Proof.
  unfold async_setup. steps.
  destruct (decide (is_Some (config !! DOMAIN))) as [[conf Hconf]|Hno]; steps.
  - by rewrite Hconf.
  - destruct (config !! DOMAIN) as [conf|] eqn:Hconf; [|done].
    exfalso. apply Hno. by exists conf.
Qed.

(** X1. [async_setup] asks for the source IP and starts the import flow
    exactly when the configuration has an entry for the domain; it
    returns [True] in both cases. *)
Theorem X1_import_flow_only_when_configured config source_ip w :
  result (async_setup config source_ip w) = Return true
  ∧ calls (async_setup config source_ip w)
    = GetSourceIp :: match config !! DOMAIN with
                     | Some _ => [FlowInit]
                     | None => []
                     end.
Proof. by rewrite async_setup_run. Qed.

(** X2. [async_setup] replaces whatever [hass.data[DOMAIN]] held: the new
    domain data has the component's configuration, no devices and no
    coordinators, also when coordinators were stored before, and no
    device is stopped; the entry and the registered callbacks are not
    touched. *)
Theorem X2_async_setup_resets_domain_data config source_ip w :
  ∃ d,
    hass_data (world (async_setup config source_ip w)) = Some d
    ∧ domain_config d = dict_get config DOMAIN ∅
    ∧ domain_devices d = ∅
    ∧ coordinators d = ∅
    ∧ count is_stop (calls (async_setup config source_ip w)) = 0%nat
    ∧ config_entry (world (async_setup config source_ip w)) = config_entry w
    ∧ ssdp_callbacks (world (async_setup config source_ip w))
      = ssdp_callbacks w.
Proof.
  rewrite async_setup_run. reduce. eexists. split; [reflexivity|].
  cbn. by destruct (config !! DOMAIN).
Qed.

(** ** Further properties of [async_unload_entry] *)

(** X3. Without [hass.data[DOMAIN]] the unload raises [KeyError] for the
    domain before anything is called or changed. *)
Theorem X3_unload_without_domain_data env w :
  hass_data w = None →
  async_unload_entry env w =
  {| result := Raise (KeyError DOMAIN); world := w; calls := [] |}.
Proof.
  intros Hd. unfold async_unload_entry. step. step. step.
  rewrite Hd. by reduce.
Qed.

(** X4. An unload removes the coordinator of its own entry and nothing
    else: the coordinators of other entries, the stored configuration,
    devices and local IP, the entry and the registered callbacks are as
    before.  It returns what the platform unload returns, and the
    coordinator is gone also when that is [False]. *)
Theorem X4_unload_removes_only_its_coordinator env w d :
  hass_data w = Some d →
  result (async_unload_entry env w) = Return (platforms_unloaded env)
  ∧ stored_coordinator (ConfigEntry.entry_id (config_entry w))
      (world (async_unload_entry env w)) = None
  ∧ (∀ key, key ≠ ConfigEntry.entry_id (config_entry w) →
       stored_coordinator key (world (async_unload_entry env w))
       = coordinators d !! key)
  ∧ (domain_config <$> hass_data (world (async_unload_entry env w)))
    = Some (domain_config d)
  ∧ (domain_devices <$> hass_data (world (async_unload_entry env w)))
    = Some (domain_devices d)
  ∧ (domain_local_ip <$> hass_data (world (async_unload_entry env w)))
    = Some (domain_local_ip d)
  ∧ config_entry (world (async_unload_entry env w)) = config_entry w
  ∧ ssdp_callbacks (world (async_unload_entry env w)) = ssdp_callbacks w.
Proof.
  intros Hd. rewrite (async_unload_entry_run env w d Hd).
  unfold stored_coordinator, set_coordinators. reduce. cbn.
  split_and!; try done.
  - apply lookup_delete_eq.
  - intros key Hkey. by apply lookup_delete_ne.
Qed.

(** X5. Right after [async_setup], unloading an entry that was never set
    up stops no device: the only call is the platform unload, whose
    result is returned. *)
Theorem X5_unload_after_component_setup config source_ip env w :
  async_unload_entry env (world (async_setup config source_ip w)) =
  {| result := Return (platforms_unloaded env);
     world := world (async_setup config source_ip w);
     calls := [UnloadPlatforms PLATFORMS] |}.
Proof.
  rewrite async_setup_run. reduce.
  erewrite async_unload_entry_run by reflexivity.
  unfold set_coordinators, set_hass_data. records.
  by rewrite lookup_empty, delete_empty.
Qed.

(** ** Further properties of the discovery wait *)

Lemma device_discovered_unlocated info wt :
  info !! ATTR_SSDP_LOCATION = None → device_discovered info wt = wt.
Proof. intros Hloc. unfold device_discovered. by rewrite Hloc. Qed.

(** Unlocated announcements that arrive in time are skipped. *)
Lemma wait_for_skip timeout pre rest wt :
  device_discovered_event wt = false →
  Forall (λ p, (p.1 < timeout)%Z ∧ unlocated p = true) pre →
  wait_for timeout (pre ++ rest) wt = wait_for timeout rest wt.
Proof.
  intros Hunset. induction 1 as [|[t s] pre [Ht Hs] _ IH]; [done|].
  cbn in *. destruct (Z.leb_spec timeout t) as [?|_]; [lia|].
  destruct s as [info|e]; [|done]. cbn in Hs.
  apply bool_decide_eq_true_1 in Hs.
  by rewrite (device_discovered_unlocated _ _ Hs), Hunset.
Qed.

(** Unlocated announcements alone never end the wait. *)
Lemma wait_for_unlocated timeout stimuli wt :
  device_discovered_event wt = false →
  Forall (λ p, unlocated p = true) stimuli →
  wait_for timeout stimuli wt = Raise TimeoutError.
Proof.
  intros Hunset. induction 1 as [|[t s] rest Hs _ IH]; [done|].
  cbn in *. destruct (timeout <=? t)%Z; [done|].
  destruct s as [info|e]; [|done]. cbn in Hs.
  apply bool_decide_eq_true_1 in Hs.
  by rewrite (device_discovered_unlocated _ _ Hs), Hunset.
Qed.

(** What arrives later than the announcement that set the event comes
    after the task has run again. *)
Lemma settle_later t rest wt :
  Forall (λ p, (t < p.1)%Z) rest → settle t rest wt = Return wt.
Proof.
  destruct 1 as [|[t' s] rest Ht _]; [done|].
  cbn in *. destruct (Z.eqb_spec t' t) as [->|_]; [lia|done].
Qed.

Lemma wait_for_located timeout t info location rest wt :
  (t < timeout)%Z →
  info !! ATTR_SSDP_LOCATION = Some location →
  wait_for timeout ((t, Announce info) :: rest) wt =
  settle t rest
    {| discovery_info := Some info; device_discovered_event := true |}.
Proof.
  intros Ht Hloc. cbn. destruct (Z.leb_spec timeout t) as [?|_]; [lia|].
  unfold device_discovered. by rewrite Hloc.
Qed.

(** X6. An entry without a stored udn, or with a udn but without a
    service type, makes [async_setup_entry] raise [KeyError] for the
    missing key before it calls anything or changes anything. *)
Theorem X6_missing_identity_is_key_error env w :
  ConfigEntry.data (config_entry w) !! CONFIG_ENTRY_UDN = None
  ∨ ConfigEntry.data (config_entry w) !! CONFIG_ENTRY_ST = None →
  ∃ key,
    (key = CONFIG_ENTRY_UDN ∨ key = CONFIG_ENTRY_ST)
    ∧ ConfigEntry.data (config_entry w) !! key = None
    ∧ async_setup_entry env w =
      {| result := Raise (KeyError key); world := w; calls := [] |}.
Proof.
  intros Hmissing.
  destruct (ConfigEntry.data (config_entry w) !! CONFIG_ENTRY_UDN)
    as [udn|] eqn:Hudn.
  - destruct Hmissing as [?|Hst]; [done|].
    exists CONFIG_ENTRY_ST. eauto using async_setup_entry_no_st.
  - exists CONFIG_ENTRY_UDN. eauto using async_setup_entry_no_udn.
Qed.

(** X7. An exception other than the timeout that is thrown into the wait
    in time, after unlocated announcements only, leaves
    [async_setup_entry] as it is, not as [ConfigEntryNotReady]; the
    registration is cancelled, nothing else is called and nothing is
    changed. *)
Theorem X7_interrupted_wait_raises_as_is env w udn st pre t e rest :
  ConfigEntry.data (config_entry w) !! CONFIG_ENTRY_UDN = Some udn →
  ConfigEntry.data (config_entry w) !! CONFIG_ENTRY_ST = Some st →
  feed env = (pre ++ (t, Interrupt e) :: rest)%list →
  Forall (λ p, (p.1 < 10)%Z ∧ unlocated p = true) pre →
  (t < 10)%Z →
  e ≠ TimeoutError →
  async_setup_entry env w =
  {| result := Raise e; world := w;
     calls := [SsdpRegister (udn ++ "::" ++ st); WaitFor 10;
               SsdpCancel (udn ++ "::" ++ st)] |}.
Proof.
  intros Hudn Hst Hfeed Hpre Ht He.
  rewrite (async_setup_entry_run env w udn st Hudn Hst).
  unfold discover_result. rewrite Hfeed, (wait_for_skip _ _ _ new_waiter eq_refl Hpre).
  cbn. destruct (Z.leb_spec 10 t) as [?|_]; [lia|].
  by destruct e.
Qed.

(** X8. When the first announcement that carries a location arrives in
    time and everything after it arrives later than it, the device is
    created from its location: unlocated announcements before it are
    skipped and what arrives later plays no part. *)
Theorem X8_first_located_announcement_is_used
    env w udn st pre t info location rest :
  ConfigEntry.data (config_entry w) !! CONFIG_ENTRY_UDN = Some udn →
  ConfigEntry.data (config_entry w) !! CONFIG_ENTRY_ST = Some st →
  feed env = (pre ++ (t, Announce info) :: rest)%list →
  Forall (λ p, (p.1 < 10)%Z ∧ unlocated p = true) pre →
  (t < 10)%Z →
  info !! ATTR_SSDP_LOCATION = Some location →
  Forall (λ p, (t < p.1)%Z) rest →
  ∃ later,
    calls (async_setup_entry env w) =
    ([SsdpRegister (udn ++ "::" ++ st); WaitFor 10;
      SsdpCancel (udn ++ "::" ++ st); CreateDevice location] ++ later)%list.
Proof.
  intros Hudn Hst Hfeed Hpre Ht Hloc Hlater.
  rewrite (async_setup_entry_run env w udn st Hudn Hst).
  unfold discover_result.
  rewrite Hfeed, (wait_for_skip _ _ _ new_waiter eq_refl Hpre),
    (wait_for_located _ _ _ _ _ _ Ht Hloc), (settle_later _ _ _ Hlater),
    after_discovery_run.
  cbn [discovery_info]. rewrite Hloc. reduce.
  unfold prepend. cbn [calls app]. eauto.
Qed.

(** X22. The callback stays registered until the waiting task runs
    again: when a second announcement with a location is dispatched at
    the same time as the first, its information replaces the first one's
    and the device is created from the second location. *)
Theorem X22_same_instant_announcement_replaces_the_first
    env w udn st pre t info1 location1 info2 location2 rest :
  ConfigEntry.data (config_entry w) !! CONFIG_ENTRY_UDN = Some udn →
  ConfigEntry.data (config_entry w) !! CONFIG_ENTRY_ST = Some st →
  feed env
  = (pre ++ (t, Announce info1) :: (t, Announce info2) :: rest)%list →
  Forall (λ p, (p.1 < 10)%Z ∧ unlocated p = true) pre →
  (t < 10)%Z →
  info1 !! ATTR_SSDP_LOCATION = Some location1 →
  info2 !! ATTR_SSDP_LOCATION = Some location2 →
  Forall (λ p, (t < p.1)%Z) rest →
  ∃ later,
    calls (async_setup_entry env w) =
    ([SsdpRegister (udn ++ "::" ++ st); WaitFor 10;
      SsdpCancel (udn ++ "::" ++ st); CreateDevice location2] ++ later)%list.
Proof.
  intros Hudn Hst Hfeed Hpre Ht Hloc1 Hloc2 Hlater.
  rewrite (async_setup_entry_run env w udn st Hudn Hst).
  unfold discover_result.
  rewrite Hfeed, (wait_for_skip _ _ _ new_waiter eq_refl Hpre),
    (wait_for_located _ _ _ _ _ _ Ht Hloc1).
  cbn [settle]. rewrite Z.eqb_refl. unfold device_discovered at 1.
  rewrite Hloc2, (settle_later _ _ _ Hlater), after_discovery_run.
  cbn [discovery_info]. rewrite Hloc2. reduce.
  unfold prepend. cbn [calls app]. eauto.
Qed.

(** X9. Announcements without a location, however many and whenever they
    arrive, do not end the wait: setup times out with
    [ConfigEntryNotReady], having only registered, waited and
    cancelled. *)
Theorem X9_unlocated_announcements_time_out env w udn st :
  ConfigEntry.data (config_entry w) !! CONFIG_ENTRY_UDN = Some udn →
  ConfigEntry.data (config_entry w) !! CONFIG_ENTRY_ST = Some st →
  Forall (λ p, unlocated p = true) (feed env) →
  async_setup_entry env w =
  {| result := Raise (ConfigEntryNotReady TimeoutError); world := w;
     calls := [SsdpRegister (udn ++ "::" ++ st); WaitFor 10;
               SsdpCancel (udn ++ "::" ++ st)] |}.
Proof.
  intros Hudn Hst Hfeed.
  rewrite (async_setup_entry_run env w udn st Hudn Hst).
  unfold discover_result. by rewrite (wait_for_unlocated _ _ new_waiter eq_refl Hfeed).
Qed.

(** X10. When the device cannot be created from the location of the
    first located announcement (everything after it arriving later), the
    error of [Device.async_create_device] leaves [async_setup_entry]
    unchanged: no entry update, no registry entry, no coordinator, and
    the world is as before. *)
Theorem X10_device_error_raises_as_is
    env w udn st pre t info location rest e :
  ConfigEntry.data (config_entry w) !! CONFIG_ENTRY_UDN = Some udn →
  ConfigEntry.data (config_entry w) !! CONFIG_ENTRY_ST = Some st →
  feed env = (pre ++ (t, Announce info) :: rest)%list →
  Forall (λ p, (p.1 < 10)%Z ∧ unlocated p = true) pre →
  (t < 10)%Z →
  info !! ATTR_SSDP_LOCATION = Some location →
  Forall (λ p, (t < p.1)%Z) rest →
  create_device env location = Raise e →
  async_setup_entry env w =
  {| result := Raise e; world := w;
     calls := [SsdpRegister (udn ++ "::" ++ st); WaitFor 10;
               SsdpCancel (udn ++ "::" ++ st); CreateDevice location] |}.
Proof.
  intros Hudn Hst Hfeed Hpre Ht Hloc Hlater Hdev.
  rewrite (async_setup_entry_run env w udn st Hudn Hst).
  unfold discover_result.
  rewrite Hfeed, (wait_for_skip _ _ _ new_waiter eq_refl Hpre),
    (wait_for_located _ _ _ _ _ _ Ht Hloc), (settle_later _ _ _ Hlater),
    after_discovery_run.
  cbn [discovery_info]. rewrite Hloc, Hdev. by reduce.
Qed.

(** ** Further properties of [async_setup_entry] *)

(** X11. An entry whose unique id is missing or empty has, after a
    successful setup, the unique id of the device that was created, and
    exactly one unique-id write was requested. *)
Theorem X11_falsy_unique_id_is_adopted env w b :
  truthy (ConfigEntry.unique_id (config_entry w)) = false →
  result (async_setup_entry env w) = Return b →
  ∃ location device,
    create_device env location = Return device
    ∧ ConfigEntry.unique_id (config_entry (world (async_setup_entry env w)))
      = Some (Device.unique_id device)
    ∧ count is_unique_id_write (calls (async_setup_entry env w)) = 1%nat.
Proof.
  intros Hfalsy. setup_paths env w; intros Hret; try discriminate Hret.
  eexists _, _. split; [eassumption|].
  unfold reconciled, with_unique_id, reconcile_calls.
  cbn [ConfigEntry.unique_id count is_unique_id_write Nat.add].
  rewrite Hfalsy. split; [done|].
  by destruct (hostname_stale device (config_entry w)).
Qed.

(** X12. Setup leaves the entry's id, its options and every data key
    other than the hostname key as they were, however the run ends. *)
Theorem X12_entry_data_is_kept env w :
  ConfigEntry.entry_id (config_entry (world (async_setup_entry env w)))
  = ConfigEntry.entry_id (config_entry w)
  ∧ ConfigEntry.options (config_entry (world (async_setup_entry env w)))
    = ConfigEntry.options (config_entry w)
  ∧ ∀ key, key ≠ CONFIG_ENTRY_HOSTNAME →
      ConfigEntry.data (config_entry (world (async_setup_entry env w))) !! key
      = ConfigEntry.data (config_entry w) !! key.
Proof.
  apply (async_setup_entry_entry
           (λ e, ConfigEntry.entry_id e = ConfigEntry.entry_id (config_entry w)
                 ∧ ConfigEntry.options e = ConfigEntry.options (config_entry w)
                 ∧ ∀ key, key ≠ CONFIG_ENTRY_HOSTNAME →
                     ConfigEntry.data e !! key
                     = ConfigEntry.data (config_entry w) !! key));
    [done|].
  intros device. unfold reconciled.
  cbn [ConfigEntry.entry_id ConfigEntry.options ConfigEntry.data].
  split_and!; [done..|]. intros key Hkey.
  destruct (hostname_stale device (config_entry w)); [|done].
  unfold dict_display_spread, dict_update.
  rewrite lookup_union, lookup_insert_ne, lookup_empty by done.
  by destruct (_ !! key).
Qed.

(** X13. Once the first refresh is attempted, a coordinator is stored
    under the entry id, also when the refresh fails and setup raises: it
    holds the device that was created and the scan interval of the
    entry's options, or the default interval when the options have
    none. *)
Theorem X13_coordinator_is_stored env w :
  FirstRefresh ∈ calls (async_setup_entry env w) →
  ∃ location device c,
    create_device env location = Return device
    ∧ stored_coordinator (ConfigEntry.entry_id (config_entry w))
        (world (async_setup_entry env w)) = Some c
    ∧ Coordinator.device c = device
    ∧ Coordinator.update_interval c
      = dict_get (ConfigEntry.options (config_entry w))
          CONFIG_ENTRY_SCAN_INTERVAL DEFAULT_SCAN_INTERVAL.
Proof.
  setup_paths env w; intros Hin;
    repeat (apply elem_of_cons in Hin as [?|Hin]; [done|]);
    try (by apply elem_of_nil in Hin);
    try (apply elem_of_app in Hin as [Hin|Hin];
         [by apply first_refresh_not_update in Hin|];
         repeat (apply elem_of_cons in Hin as [?|Hin]; [done|]);
         try (by apply elem_of_nil in Hin)).
  all: eexists _, _, _; (split; [eassumption|]);
    unfold stored_coordinator, set_coordinators, refresh_cycle; reduce;
    cbn [mbind option_bind coordinators ConfigEntry.entry_id reconciled];
    rewrite lookup_insert_eq, Hupd; done.
Qed.

(** X14. Unloading after a successful setup stops the device that the
    setup started, then unloads the platforms and returns their result;
    the entry's coordinator is gone afterwards. *)
Theorem X14_unload_stops_the_started_device env env' w b :
  result (async_setup_entry env w) = Return b →
  ∃ device,
    last (calls (async_setup_entry env w)) = Some (DeviceStart device)
    ∧ calls (async_unload_entry env' (world (async_setup_entry env w)))
      = [DeviceStop device; UnloadPlatforms PLATFORMS]
    ∧ result (async_unload_entry env' (world (async_setup_entry env w)))
      = Return (platforms_unloaded env')
    ∧ stored_coordinator (ConfigEntry.entry_id (config_entry w))
        (world (async_unload_entry env' (world (async_setup_entry env w))))
      = None.
Proof.
  setup_paths env w; intros Hret; try discriminate Hret.
  exists device.
  erewrite async_unload_entry_run by reflexivity.
  unfold stored_coordinator, set_coordinators, refresh_cycle. reduce.
  cbn [mbind option_bind coordinators ConfigEntry.entry_id reconciled].
  rewrite lookup_insert_eq, Hupd. split_and!; try done.
  2: { unfold set_hass_data. records. cbn [mbind option_bind].
       apply lookup_delete_eq. }
  by rewrite !last_cons_cons, app_comm_cons, last_app.
Qed.

(** X15. Setup changes nothing in [hass.data[DOMAIN]] but the slot of its
    own entry: the stored configuration, devices and local IP and the
    coordinators of other entries are as before, however the run
    ends. *)
Theorem X15_setup_touches_only_its_slot env w d :
  hass_data w = Some d →
  ∃ d',
    hass_data (world (async_setup_entry env w)) = Some d'
    ∧ domain_config d' = domain_config d
    ∧ domain_devices d' = domain_devices d
    ∧ domain_local_ip d' = domain_local_ip d
    ∧ ∀ key, key ≠ ConfigEntry.entry_id (config_entry w) →
        coordinators d' !! key = coordinators d !! key.
Proof.
  intros Hdata. setup_paths env w; rewrite ?Hdata; simplify_eq;
    try (by exists d).
  all: eexists; (split; [reflexivity|]); unfold set_coordinators; cbn;
    split_and!; [done..|]; intros key Hkey; by rewrite lookup_insert_ne.
Qed.


(** ** The entity base class *)

(** X17. An entity built on the coordinator that a successful setup
    stored is bound to the device the setup registered: its device is the
    coordinator's, its connections are the single UPnP connection of that
    device's udn, and its name, manufacturer and model are the ones
    passed to the device registry. *)
Theorem X17_entity_matches_registry_entry CONNECTION_UPNP env w b :
  result (async_setup_entry env w) = Return b →
  ∃ c,
    stored_coordinator (ConfigEntry.entry_id (config_entry w))
      (world (async_setup_entry env w)) = Some c
    ∧ UpnpEntity._device (UpnpEntity CONNECTION_UPNP c) = Coordinator.device c
    ∧ info_connections
        (UpnpEntity._attr_device_info (UpnpEntity CONNECTION_UPNP c))
      = {[ (CONNECTION_UPNP, Device.udn (Coordinator.device c)) ]}
    ∧ RegistryGetOrCreate (ConfigEntry.entry_id (config_entry w))
        (Device.udn (Coordinator.device c))
        (info_name
           (UpnpEntity._attr_device_info (UpnpEntity CONNECTION_UPNP c)))
        (info_manufacturer
           (UpnpEntity._attr_device_info (UpnpEntity CONNECTION_UPNP c)))
        (info_model
           (UpnpEntity._attr_device_info (UpnpEntity CONNECTION_UPNP c)))
      ∈ calls (async_setup_entry env w).
Proof.
  setup_paths env w; intros Hret; try discriminate Hret.
  eexists.
  unfold stored_coordinator, set_coordinators, refresh_cycle. reduce.
  cbn [mbind option_bind coordinators ConfigEntry.entry_id reconciled].
  rewrite lookup_insert_eq, Hupd. split; [reflexivity|].
  cbn. split_and!; [done..|].
  do 4 apply list_elem_of_further.
  apply elem_of_app. right. apply list_elem_of_here.
Qed.

End Facts.

(** ** Further properties of the merge *)

(** X18. When the two fetches report disjoint key sets, the order of the
    merge plays no part: merging status over traffic and traffic over
    status give the same snapshot, and it has as many items as both
    mappings together. *)
Theorem X18_disjoint_merge_is_order_independent race race'
    (traffic status : Mapping) :
  dom traffic ## dom status →
  _async_update_data race (Return traffic) (Return status)
  = _async_update_data race' (Return status) (Return traffic)
  ∧ ∃ snapshot,
      _async_update_data race (Return traffic) (Return status)
      = Return snapshot
      ∧ size snapshot = (size traffic + size status)%nat.
Proof.
  intros Hdisjoint. apply map_disjoint_dom in Hdisjoint.
  cbn. unfold dict_update, dict_copy. split.
  - f_equal. by apply map_union_comm.
  - eexists. split; [reflexivity|].
    rewrite map_size_disj_union by done. lia.
Qed.

(** X19. A fetch that reports nothing contributes nothing: with an empty
    status mapping the snapshot is the traffic mapping, with an empty
    traffic mapping it is the status mapping. *)
Theorem X19_empty_fetch_result race (m : Mapping) :
  _async_update_data race (Return m) (Return ∅) = Return m
  ∧ _async_update_data race (Return ∅) (Return m) = Return m.
Proof.
  cbn. unfold dict_update, dict_copy.
  by rewrite (left_id_L ∅ (∪)), (right_id_L ∅ (∪)).
Qed.

(** ** The refresh cycle *)

Lemma dict_update_lookup {V} (d other : gmap string V) k :
  dict_update d other !! k =
  match other !! k with Some v => Some v | None => d !! k end.
Proof. unfold dict_update. rewrite lookup_union. by destruct (other !! k), (d !! k). Qed.

(** C2. When both fetches succeed, [_async_update_data] returns one
    mapping whose keys are those of the traffic mapping and of the status
    mapping, and which gives every key the status value when the status
    mapping has the key and the traffic value otherwise: the traffic
    mapping is copied first and the status mapping written over it. *)
Theorem C2_snapshot_merges_traffic_then_status race (traffic status : Mapping) :
  ∃ snapshot,
    _async_update_data race (Return traffic) (Return status) = Return snapshot
    ∧ dom snapshot = dom traffic ∪ dom status
    ∧ ∀ k, snapshot !! k = match status !! k with
                           | Some v => Some v
                           | None => traffic !! k
                           end.
Proof.
  eexists. split; [reflexivity|]. cbn [fst snd]. unfold dict_copy. split.
  - unfold dict_update. rewrite dom_union_L. apply (comm_L _).
  - intros k. apply dict_update_lookup.
Qed.

(** C3. When at least one of the two fetches fails, [_async_update_data]
    raises the error of a failed fetch and returns no mapping, and the
    refresh cycle leaves the coordinator's snapshot as it was, sets
    [last_update_success] to false and records the error. *)
Theorem C3_failed_fetch_publishes_nothing race traffic status c :
  is_raise traffic || is_raise status = true →
  ∃ e,
    _async_update_data race traffic status = Raise e
    ∧ (traffic = Raise e ∨ status = Raise e)
    ∧ Coordinator.data (refresh_cycle race traffic status c)
      = Coordinator.data c
    ∧ Coordinator.last_update_success (refresh_cycle race traffic status c)
      = false
    ∧ Coordinator.last_exception (refresh_cycle race traffic status c)
      = Some e.
Proof.
  intros Hfail. unfold refresh_cycle.
  destruct traffic as [t|e0], status as [s|e1]; try discriminate Hfail;
    cbn; [exists e1|exists e0|destruct race; [exists e1|exists e0]];
    auto 10.
Qed.


(** ** Concrete runs

    The runs below use the key names of [ha_const]. *)

#[local] Existing Instance ha_const.

Example setup_example :
  result (async_setup_entry (env0 (announce_at 2)) (world0 fresh_entry))
  = Return true
  ∧ calls (async_setup_entry (env0 (announce_at 2)) (world0 fresh_entry)) !! 0%nat
    = Some (SsdpRegister usn0)
  ∧ calls (async_setup_entry (env0 (announce_at 2)) (world0 fresh_entry)) !! 3%nat
    = Some (CreateDevice "http://192.168.1.1:1900/desc.xml")
  ∧ (example_snapshot ≫= λ snapshot, snapshot !! "bytes_sent")
    = Some (VInt 100)
  ∧ (example_snapshot ≫= λ snapshot, snapshot !! "status")
    = Some (VStr "Connected")
  ∧ size <$> example_snapshot = Some 2%nat.
Proof. vm_compute. done. Qed.

(** C1, at an entry whose stored hostname ("192.168.1.254") differs from
    the hostname of the discovered device ("192.168.1.1"): setup succeeds
    and requests one data write, yet the entry's stored hostname is still
    the old one afterwards, because the written mapping lists the new
    hostname before the unpacked old data. *)
Theorem C1_stale_hostname_is_kept :
  Device.hostname router = "192.168.1.1"
  ∧ ConfigEntry.data stale_entry !! "hostname" = Some "192.168.1.254"
  ∧ result (async_setup_entry (env0 (announce_at 2)) (world0 stale_entry))
    = Return true
  ∧ count is_data_write
      (calls (async_setup_entry (env0 (announce_at 2)) (world0 stale_entry)))
    = 1%nat
  ∧ ConfigEntry.data
      (config_entry
         (world (async_setup_entry (env0 (announce_at 2)) (world0 stale_entry))))
    !! "hostname" = Some "192.168.1.254".
Proof. vm_compute. done. Qed.

(** C5 as stated fails: the entry asks for 30 seconds, the announcement
    arrives after 15 seconds, and setup still waits 10 seconds only and
    ends with [ConfigEntryNotReady]. *)
Lemma C5_timeout_not_configurable :
  ConfigEntry.options patient_entry !! "timeout" = Some 30%Z
  ∧ result (async_setup_entry (env0 (announce_at 15)) (world0 patient_entry))
    = Raise (ConfigEntryNotReady TimeoutError)
  ∧ calls (async_setup_entry (env0 (announce_at 15)) (world0 patient_entry))
    = [SsdpRegister usn0; WaitFor 10; SsdpCancel usn0].
Proof. vm_compute. done. Qed.

(** ** The theorems at concrete inputs *)

Lemma C3_witness :
  is_raise traffic_ok || is_raise status_down = true
  ∧ ∃ e,
      _async_update_data false traffic_ok status_down = Raise e
      ∧ (traffic_ok = Raise e ∨ status_down = Raise e)
      ∧ Coordinator.data (refresh_cycle false traffic_ok status_down
                            warm_coordinator)
        = Coordinator.data warm_coordinator
      ∧ Coordinator.last_update_success
          (refresh_cycle false traffic_ok status_down warm_coordinator)
        = false
      ∧ Coordinator.last_exception
          (refresh_cycle false traffic_ok status_down warm_coordinator)
        = Some e.
Proof.
  split; [reflexivity|].
  apply (C3_failed_fetch_publishes_nothing false traffic_ok status_down
           warm_coordinator).
  reflexivity.
Defined.

Lemma fresh_entry_udn :
  ConfigEntry.data (config_entry (world0 fresh_entry)) !! CONFIG_ENTRY_UDN
  = Some "udn123".
Proof. vm_compute. reflexivity. Defined.

Lemma fresh_entry_st :
  ConfigEntry.data (config_entry (world0 fresh_entry)) !! CONFIG_ENTRY_ST
  = Some wan_st.
Proof. vm_compute. reflexivity. Defined.

Lemma C4_witness :
  ConfigEntry.data (config_entry (world0 fresh_entry)) !! CONFIG_ENTRY_UDN
  = Some "udn123"
  ∧ ConfigEntry.data (config_entry (world0 fresh_entry)) !! CONFIG_ENTRY_ST
    = Some wan_st
  ∧ count is_register
      (calls (async_setup_entry (env0 cancelled_wait) (world0 fresh_entry))) = 1%nat
  ∧ count is_cancel
      (calls (async_setup_entry (env0 cancelled_wait) (world0 fresh_entry))) = 1%nat
  ∧ (∃ rest, calls (async_setup_entry (env0 cancelled_wait) (world0 fresh_entry))
             = SsdpRegister ("udn123" ++ "::" ++ wan_st) :: WaitFor 10
               :: SsdpCancel ("udn123" ++ "::" ++ wan_st) :: rest)
  ∧ ssdp_callbacks (world (async_setup_entry (env0 cancelled_wait) (world0 fresh_entry)))
    = ssdp_callbacks (world0 fresh_entry).
Proof.
  split; [exact fresh_entry_udn|]. split; [exact fresh_entry_st|].
  exact (C4_discovery_subscription_scoped (env0 cancelled_wait) (world0 fresh_entry)
           "udn123" wan_st fresh_entry_udn fresh_entry_st).
Defined.

Lemma late_announcement :
  Forall (λ p : Z * Stimulus, (10 ≤ p.1)%Z) (feed (env0 (announce_at 15))).
Proof. repeat constructor. cbn. lia. Defined.

Lemma C5_witness :
  Forall (λ p : Z * Stimulus, (10 ≤ p.1)%Z) (feed (env0 (announce_at 15)))
  ∧ async_setup_entry (env0 (announce_at 15)) (world0 fresh_entry) =
    {| result := Raise (ConfigEntryNotReady TimeoutError);
       world := world0 fresh_entry;
       calls := [SsdpRegister ("udn123" ++ "::" ++ wan_st); WaitFor 10;
                 SsdpCancel ("udn123" ++ "::" ++ wan_st)] |}.
Proof.
  split; [exact late_announcement|].
  exact (proj2 (C5_timeout_fixed_not_ready (env0 (announce_at 15))
                  (world0 fresh_entry))
           "udn123" wan_st fresh_entry_udn fresh_entry_st late_announcement).
Defined.

Lemma C8_witness :
  ConfigEntry.data (config_entry (world0 fresh_entry)) !! CONFIG_ENTRY_UDN
  = Some "udn123"
  ∧ ConfigEntry.data (config_entry (world0 fresh_entry)) !! CONFIG_ENTRY_ST
    = Some wan_st
  ∧ ∃ rest,
      calls (async_setup_entry (env0 (announce_at 2)) (world0 fresh_entry))
      = SsdpRegister ("udn123" ++ "::" ++ wan_st) :: rest
      ∧ count is_register rest = 0%nat.
Proof.
  split; [exact fresh_entry_udn|]. split; [exact fresh_entry_st|].
  exact (C8_usn_is_udn_sep_st (env0 (announce_at 2)) (world0 fresh_entry)
           "udn123" wan_st fresh_entry_udn fresh_entry_st).
Defined.

Lemma C10_witness :
  ConfigEntry.unique_id (config_entry (world0 stale_entry))
  = Some "udn123::igd"
  ∧ "udn123::igd" ≠ ""
  ∧ ConfigEntry.unique_id
      (config_entry
         (world (async_setup_entry (env0 (announce_at 2)) (world0 stale_entry))))
    = Some "udn123::igd"
  ∧ count is_unique_id_write
      (calls (async_setup_entry (env0 (announce_at 2)) (world0 stale_entry)))
    = 0%nat.
Proof.
  split; [reflexivity|]. split; [discriminate|].
  apply (C10_unique_id_kept (env0 (announce_at 2)) (world0 stale_entry)
           "udn123::igd"); [reflexivity|discriminate].
Defined.

Lemma C7_witness :
  hass_data running_world = Some running_domain
  ∧ result (async_unload_entry (env0 []) running_world)
    = Return (platforms_unloaded (env0 []))
  ∧ result (async_unload_entry (env0 [])
              (world (async_unload_entry (env0 []) running_world)))
    = Return (platforms_unloaded (env0 []))
  ∧ calls (async_unload_entry (env0 [])
             (world (async_unload_entry (env0 []) running_world)))
    = [UnloadPlatforms PLATFORMS]
  ∧ (count is_stop
       (calls (async_unload_entry (env0 []) running_world)
        ++ calls (async_unload_entry (env0 [])
                    (world (async_unload_entry (env0 []) running_world))))
     ≤ 1)%nat
  ∧ calls (async_unload_entry (env0 []) running_world)
    = match coordinators running_domain
            !! ConfigEntry.entry_id (config_entry running_world) with
      | Some coordinator =>
          [DeviceStop (Coordinator.device coordinator);
           UnloadPlatforms PLATFORMS]
      | None => [UnloadPlatforms PLATFORMS]
      end
  ∧ stored_coordinator (ConfigEntry.entry_id (config_entry running_world))
      (world (async_unload_entry (env0 []) running_world)) = None
  ∧ stored_coordinator (ConfigEntry.entry_id (config_entry running_world))
      (world (async_unload_entry (env0 [])
                (world (async_unload_entry (env0 []) running_world))))
    = None.
Proof.
  split; [reflexivity|].
  apply (C7_unload_twice (env0 []) (env0 []) running_world running_domain).
  reflexivity.
Defined.

(** At the running world the first unload stops the router and the
    second stops nothing. *)
Example unload_twice_run :
  coordinators running_domain !! "e1" = Some warm_coordinator
  ∧ calls (async_unload_entry (env0 []) running_world)
    = [DeviceStop router; UnloadPlatforms PLATFORMS]
  ∧ calls (async_unload_entry (env0 [])
             (world (async_unload_entry (env0 []) running_world)))
    = [UnloadPlatforms PLATFORMS].
Proof. vm_compute. done. Qed.

Lemma setup_succeeds :
  result (async_setup_entry (env0 (announce_at 2)) (world0 fresh_entry))
  = Return true.
Proof. vm_compute. reflexivity. Defined.

Lemma first_refresh_down :
  _async_update_data (status_fails_first (env_down (announce_at 2)))
    (traffic_data (env_down (announce_at 2))) (status (env_down (announce_at 2)))
  = Raise (DeviceError "no route").
Proof. reflexivity. Defined.

Lemma first_refresh_reached :
  FirstRefresh
  ∈ calls (async_setup_entry (env_down (announce_at 2)) (world0 fresh_entry)).
Proof.
  apply list_elem_of_lookup. exists 7%nat. vm_compute. reflexivity.
Defined.

Lemma C6_witness :
  (result (async_setup_entry (env0 (announce_at 2)) (world0 fresh_entry))
   = Return true
   ∧ ∃ usn t info location device updates,
       (t, Announce info) ∈ feed (env0 (announce_at 2)) ∧ (t < 10)%Z
       ∧ info !! ATTR_SSDP_LOCATION = Some location
       ∧ create_device (env0 (announce_at 2)) location = Return device
       ∧ Forall (λ c, is_entry_update c = true) updates
       ∧ is_raise (_async_update_data
                     (status_fails_first (env0 (announce_at 2)))
                     (traffic_data (env0 (announce_at 2)))
                     (status (env0 (announce_at 2)))) = false
       ∧ calls (async_setup_entry (env0 (announce_at 2)) (world0 fresh_entry)) =
         ([SsdpRegister usn; WaitFor 10; SsdpCancel usn; CreateDevice location]
          ++ updates
          ++ [RegistryGetOrCreate
                (ConfigEntry.entry_id (config_entry (world0 fresh_entry)))
                (Device.udn device) (Device.name device)
                (Device.manufacturer device) (Device.model_name device);
              FirstRefresh; SetupPlatforms PLATFORMS; DeviceStart device])%list)
  ∧ (_async_update_data (status_fails_first (env_down (announce_at 2)))
       (traffic_data (env_down (announce_at 2)))
       (status (env_down (announce_at 2)))
     = Raise (DeviceError "no route")
     ∧ FirstRefresh
       ∈ calls (async_setup_entry (env_down (announce_at 2))
                  (world0 fresh_entry))
     ∧ is_raise (result (async_setup_entry (env_down (announce_at 2))
                           (world0 fresh_entry))) = true
     ∧ count is_setup_platforms
         (calls (async_setup_entry (env_down (announce_at 2))
                   (world0 fresh_entry))) = 0%nat
     ∧ count is_start
         (calls (async_setup_entry (env_down (announce_at 2))
                   (world0 fresh_entry))) = 0%nat
     ∧ result (async_setup_entry (env_down (announce_at 2))
                 (world0 fresh_entry))
       = Raise (ConfigEntryNotReady (DeviceError "no route"))
     ∧ last (calls (async_setup_entry (env_down (announce_at 2))
                      (world0 fresh_entry)))
       = Some FirstRefresh).
Proof.
  split.
  - split; [exact setup_succeeds|].
    exact (proj1 (C6_setup_order (env0 (announce_at 2)) (world0 fresh_entry))
             true setup_succeeds).
  - destruct (proj2 (C6_setup_order (env_down (announce_at 2))
                       (world0 fresh_entry))
                (DeviceError "no route") first_refresh_down)
      as (Hraise & Hplatforms & Hstart & Hlast).
    destruct (Hlast first_refresh_reached) as [Hresult Hend].
    repeat split; [exact first_refresh_reached|assumption..].
Defined.

(** A cancelled wait: the error escapes, the registration is cancelled. *)
Example cancelled_wait_run :
  async_setup_entry (env0 cancelled_wait) (world0 fresh_entry) =
  {| result := Raise CancelledError;
     world := world0 fresh_entry;
     calls := [SsdpRegister usn0; WaitFor 10; SsdpCancel usn0] |}.
Proof. vm_compute. reflexivity. Qed.

(** ** The further properties at concrete inputs *)

Lemma X3_witness :
  hass_data bare_world = None
  ∧ async_unload_entry (env0 []) bare_world =
    {| result := Raise (KeyError DOMAIN); world := bare_world; calls := [] |}.
Proof.
  split; [reflexivity|].
  exact (X3_unload_without_domain_data (env0 []) bare_world eq_refl).
Defined.

Lemma X4_witness :
  hass_data running_world = Some running_domain
  ∧ result (async_unload_entry (env0 []) running_world)
    = Return (platforms_unloaded (env0 []))
  ∧ stored_coordinator (ConfigEntry.entry_id (config_entry running_world))
      (world (async_unload_entry (env0 []) running_world)) = None
  ∧ (∀ key, key ≠ ConfigEntry.entry_id (config_entry running_world) →
       stored_coordinator key (world (async_unload_entry (env0 []) running_world))
       = coordinators running_domain !! key)
  ∧ (domain_config <$> hass_data (world (async_unload_entry (env0 []) running_world)))
    = Some (domain_config running_domain)
  ∧ (domain_devices <$> hass_data (world (async_unload_entry (env0 []) running_world)))
    = Some (domain_devices running_domain)
  ∧ (domain_local_ip <$> hass_data (world (async_unload_entry (env0 []) running_world)))
    = Some (domain_local_ip running_domain)
  ∧ config_entry (world (async_unload_entry (env0 []) running_world))
    = config_entry running_world
  ∧ ssdp_callbacks (world (async_unload_entry (env0 []) running_world))
    = ssdp_callbacks running_world.
Proof.
  split; [reflexivity|].
  exact (X4_unload_removes_only_its_coordinator (env0 []) running_world
           running_domain eq_refl).
Defined.

Lemma anonymous_entry_no_udn :
  ConfigEntry.data (config_entry (world0 anonymous_entry)) !! CONFIG_ENTRY_UDN
  = None.
Proof. vm_compute. reflexivity. Defined.

Lemma X6_witness :
  (ConfigEntry.data (config_entry (world0 anonymous_entry)) !! CONFIG_ENTRY_UDN
   = None
   ∨ ConfigEntry.data (config_entry (world0 anonymous_entry)) !! CONFIG_ENTRY_ST
     = None)
  ∧ ∃ key,
      (key = CONFIG_ENTRY_UDN ∨ key = CONFIG_ENTRY_ST)
      ∧ ConfigEntry.data (config_entry (world0 anonymous_entry)) !! key = None
      ∧ async_setup_entry (env0 (announce_at 2)) (world0 anonymous_entry) =
        {| result := Raise (KeyError key); world := world0 anonymous_entry;
           calls := [] |}.
Proof.
  split; [left; exact anonymous_entry_no_udn|].
  exact (X6_missing_identity_is_key_error (env0 (announce_at 2))
           (world0 anonymous_entry) (or_introl anonymous_entry_no_udn)).
Defined.

Lemma bare_is_skipped :
  Forall (λ p : Z * Stimulus, (p.1 < 10)%Z ∧ unlocated p = true)
    [(1%Z, bare_announcement)].
Proof. repeat constructor. Defined.

Lemma X7_witness :
  feed (env0 cancelled_feed)
  = ([(1, bare_announcement)]
     ++ (3, Interrupt CancelledError) :: bare_then_cancelled_rest)%list
  ∧ (3 < 10)%Z
  ∧ CancelledError ≠ TimeoutError
  ∧ async_setup_entry (env0 cancelled_feed) (world0 fresh_entry) =
    {| result := Raise CancelledError; world := world0 fresh_entry;
       calls := [SsdpRegister ("udn123" ++ "::" ++ wan_st); WaitFor 10;
                 SsdpCancel ("udn123" ++ "::" ++ wan_st)] |}.
Proof.
  split; [reflexivity|]. split; [lia|]. split; [discriminate|].
  apply (X7_interrupted_wait_raises_as_is (env0 cancelled_feed)
           (world0 fresh_entry) "udn123" wan_st
           [(1%Z, bare_announcement)] 3%Z CancelledError
           bare_then_cancelled_rest fresh_entry_udn fresh_entry_st eq_refl
           bare_is_skipped);
    [lia|discriminate].
Defined.

Lemma desc_url_located :
  ({["ssdp_location" := desc_url]} : StrMapping) !! ATTR_SSDP_LOCATION
  = Some desc_url.
Proof. vm_compute. reflexivity. Defined.

Lemma rest_is_later :
  Forall (λ p : Z * Stimulus, (2 < p.1)%Z) bare_then_located_rest.
Proof. repeat constructor. Defined.

Lemma X8_witness :
  feed (env0 located_feed)
  = ([(1, bare_announcement)]
     ++ (2, located_announcement desc_url) :: bare_then_located_rest)%list
  ∧ (2 < 10)%Z
  ∧ Forall (λ p : Z * Stimulus, (2 < p.1)%Z) bare_then_located_rest
  ∧ ∃ later,
      calls (async_setup_entry (env0 located_feed) (world0 fresh_entry)) =
      ([SsdpRegister ("udn123" ++ "::" ++ wan_st); WaitFor 10;
        SsdpCancel ("udn123" ++ "::" ++ wan_st); CreateDevice desc_url]
       ++ later)%list.
Proof.
  split; [reflexivity|]. split; [lia|]. split; [exact rest_is_later|].
  apply (X8_first_located_announcement_is_used (env0 located_feed)
           (world0 fresh_entry)
           "udn123" wan_st [(1%Z, bare_announcement)] 2%Z
           {["ssdp_location" := desc_url]} desc_url bare_then_located_rest
           fresh_entry_udn fresh_entry_st eq_refl bare_is_skipped);
    [lia|exact desc_url_located|exact rest_is_later].
Defined.

Lemma second_url_located :
  ({["ssdp_location" := second_url]} : StrMapping) !! ATTR_SSDP_LOCATION
  = Some second_url.
Proof. vm_compute. reflexivity. Defined.

Lemma X22_witness :
  feed (env0 twin_feed)
  = ([(1, bare_announcement)]
     ++ (2, located_announcement desc_url)
        :: (2, located_announcement second_url) :: bare_then_located_rest)%list
  ∧ (2 < 10)%Z
  ∧ Forall (λ p : Z * Stimulus, (2 < p.1)%Z) bare_then_located_rest
  ∧ ∃ later,
      calls (async_setup_entry (env0 twin_feed) (world0 fresh_entry)) =
      ([SsdpRegister ("udn123" ++ "::" ++ wan_st); WaitFor 10;
        SsdpCancel ("udn123" ++ "::" ++ wan_st); CreateDevice second_url]
       ++ later)%list.
Proof.
  split; [reflexivity|]. split; [lia|]. split; [exact rest_is_later|].
  apply (X22_same_instant_announcement_replaces_the_first (env0 twin_feed)
           (world0 fresh_entry)
           "udn123" wan_st [(1%Z, bare_announcement)] 2%Z
           {["ssdp_location" := desc_url]} desc_url
           {["ssdp_location" := second_url]} second_url
           bare_then_located_rest
           fresh_entry_udn fresh_entry_st eq_refl bare_is_skipped);
    [lia|exact desc_url_located|exact second_url_located|exact rest_is_later].
Defined.

Lemma only_bare_unlocated :
  Forall (λ p : Z * Stimulus, unlocated p = true) (feed (env0 only_bare)).
Proof. repeat constructor. Defined.

Lemma X9_witness :
  Forall (λ p : Z * Stimulus, unlocated p = true) (feed (env0 only_bare))
  ∧ async_setup_entry (env0 only_bare) (world0 fresh_entry) =
    {| result := Raise (ConfigEntryNotReady TimeoutError);
       world := world0 fresh_entry;
       calls := [SsdpRegister ("udn123" ++ "::" ++ wan_st); WaitFor 10;
                 SsdpCancel ("udn123" ++ "::" ++ wan_st)] |}.
Proof.
  split; [exact only_bare_unlocated|].
  exact (X9_unlocated_announcements_time_out (env0 only_bare)
           (world0 fresh_entry) "udn123" wan_st fresh_entry_udn fresh_entry_st
           only_bare_unlocated).
Defined.

Lemma X10_witness :
  create_device (env_unreachable located_feed) desc_url
  = Raise (DeviceError "unreachable")
  ∧ Forall (λ p : Z * Stimulus, (2 < p.1)%Z) bare_then_located_rest
  ∧ async_setup_entry (env_unreachable located_feed) (world0 fresh_entry) =
    {| result := Raise (DeviceError "unreachable");
       world := world0 fresh_entry;
       calls := [SsdpRegister ("udn123" ++ "::" ++ wan_st); WaitFor 10;
                 SsdpCancel ("udn123" ++ "::" ++ wan_st);
                 CreateDevice desc_url] |}.
Proof.
  split; [reflexivity|]. split; [exact rest_is_later|].
  apply (X10_device_error_raises_as_is (env_unreachable located_feed)
           (world0 fresh_entry)
           "udn123" wan_st [(1%Z, bare_announcement)] 2%Z
           {["ssdp_location" := desc_url]} desc_url bare_then_located_rest
           (DeviceError "unreachable")
           fresh_entry_udn fresh_entry_st eq_refl bare_is_skipped);
    [lia|exact desc_url_located|exact rest_is_later|reflexivity].
Defined.

Lemma X11_witness :
  truthy (ConfigEntry.unique_id (config_entry (world0 fresh_entry))) = false
  ∧ result (async_setup_entry (env0 (announce_at 2)) (world0 fresh_entry))
    = Return true
  ∧ ∃ location device,
      create_device (env0 (announce_at 2)) location = Return device
      ∧ ConfigEntry.unique_id
          (config_entry
             (world (async_setup_entry (env0 (announce_at 2))
                       (world0 fresh_entry))))
        = Some (Device.unique_id device)
      ∧ count is_unique_id_write
          (calls (async_setup_entry (env0 (announce_at 2))
                    (world0 fresh_entry))) = 1%nat.
Proof.
  split; [reflexivity|]. split; [exact setup_succeeds|].
  exact (X11_falsy_unique_id_is_adopted (env0 (announce_at 2))
           (world0 fresh_entry) true eq_refl setup_succeeds).
Defined.

Lemma X13_witness :
  FirstRefresh
  ∈ calls (async_setup_entry (env_down (announce_at 2)) (world0 fresh_entry))
  ∧ ∃ location device c,
      create_device (env_down (announce_at 2)) location = Return device
      ∧ stored_coordinator (ConfigEntry.entry_id (config_entry (world0 fresh_entry)))
          (world (async_setup_entry (env_down (announce_at 2))
                    (world0 fresh_entry))) = Some c
      ∧ Coordinator.device c = device
      ∧ Coordinator.update_interval c
        = dict_get (ConfigEntry.options (config_entry (world0 fresh_entry)))
            CONFIG_ENTRY_SCAN_INTERVAL DEFAULT_SCAN_INTERVAL.
Proof.
  split; [exact first_refresh_reached|].
  exact (X13_coordinator_is_stored (env_down (announce_at 2))
           (world0 fresh_entry) first_refresh_reached).
Defined.

Lemma X14_witness :
  result (async_setup_entry (env0 (announce_at 2)) (world0 fresh_entry))
  = Return true
  ∧ ∃ device,
      last (calls (async_setup_entry (env0 (announce_at 2))
                     (world0 fresh_entry)))
      = Some (DeviceStart device)
      ∧ calls (async_unload_entry (env0 [])
                 (world (async_setup_entry (env0 (announce_at 2))
                           (world0 fresh_entry))))
        = [DeviceStop device; UnloadPlatforms PLATFORMS]
      ∧ result (async_unload_entry (env0 [])
                  (world (async_setup_entry (env0 (announce_at 2))
                            (world0 fresh_entry))))
        = Return (platforms_unloaded (env0 []))
      ∧ stored_coordinator
          (ConfigEntry.entry_id (config_entry (world0 fresh_entry)))
          (world (async_unload_entry (env0 [])
                    (world (async_setup_entry (env0 (announce_at 2))
                              (world0 fresh_entry)))))
        = None.
Proof.
  split; [exact setup_succeeds|].
  exact (X14_unload_stops_the_started_device (env0 (announce_at 2)) (env0 [])
           (world0 fresh_entry) true setup_succeeds).
Defined.

Lemma X15_witness :
  hass_data (world0 fresh_entry) = Some domain0
  ∧ ∃ d',
      hass_data (world (async_setup_entry (env0 (announce_at 2))
                          (world0 fresh_entry))) = Some d'
      ∧ domain_config d' = domain_config domain0
      ∧ domain_devices d' = domain_devices domain0
      ∧ domain_local_ip d' = domain_local_ip domain0
      ∧ ∀ key, key ≠ ConfigEntry.entry_id (config_entry (world0 fresh_entry)) →
          coordinators d' !! key = coordinators domain0 !! key.
Proof.
  split; [reflexivity|].
  exact (X15_setup_touches_only_its_slot (env0 (announce_at 2))
           (world0 fresh_entry) domain0 eq_refl).
Defined.

Lemma X17_witness :
  result (async_setup_entry (env0 (announce_at 2)) (world0 fresh_entry))
  = Return true
  ∧ ∃ c,
      stored_coordinator
        (ConfigEntry.entry_id (config_entry (world0 fresh_entry)))
        (world (async_setup_entry (env0 (announce_at 2)) (world0 fresh_entry)))
      = Some c
      ∧ UpnpEntity._device (UpnpEntity "upnp" c) = Coordinator.device c
      ∧ info_connections (UpnpEntity._attr_device_info (UpnpEntity "upnp" c))
        = {[ ("upnp", Device.udn (Coordinator.device c)) ]}
      ∧ RegistryGetOrCreate
          (ConfigEntry.entry_id (config_entry (world0 fresh_entry)))
          (Device.udn (Coordinator.device c))
          (info_name (UpnpEntity._attr_device_info (UpnpEntity "upnp" c)))
          (info_manufacturer
             (UpnpEntity._attr_device_info (UpnpEntity "upnp" c)))
          (info_model (UpnpEntity._attr_device_info (UpnpEntity "upnp" c)))
        ∈ calls (async_setup_entry (env0 (announce_at 2)) (world0 fresh_entry)).
Proof.
  split; [exact setup_succeeds|].
  exact (X17_entity_matches_registry_entry "upnp" (env0 (announce_at 2))
           (world0 fresh_entry) true setup_succeeds).
Defined.

Lemma example_keys_disjoint :
  dom ({["bytes_sent" := VInt 100]} : Mapping)
  ## dom ({["status" := VStr "Connected"]} : Mapping).
Proof.
  rewrite !dom_singleton_L. apply disjoint_singleton_l.
  rewrite elem_of_singleton. discriminate.
Defined.

Lemma X18_witness :
  dom ({["bytes_sent" := VInt 100]} : Mapping)
  ## dom ({["status" := VStr "Connected"]} : Mapping)
  ∧ _async_update_data false (Return {["bytes_sent" := VInt 100]})
      (Return {["status" := VStr "Connected"]})
    = _async_update_data true (Return {["status" := VStr "Connected"]})
        (Return {["bytes_sent" := VInt 100]})
  ∧ ∃ snapshot,
      _async_update_data false (Return {["bytes_sent" := VInt 100]})
        (Return {["status" := VStr "Connected"]})
      = Return snapshot
      ∧ size snapshot
        = (size ({["bytes_sent" := VInt 100]} : Mapping)
           + size ({["status" := VStr "Connected"]} : Mapping))%nat.
Proof.
  split; [exact example_keys_disjoint|].
  exact (X18_disjoint_merge_is_order_independent false true
           {["bytes_sent" := VInt 100]} {["status" := VStr "Connected"]}
           example_keys_disjoint).
Defined.

Lemma stale_free_entry_hostname :
  ConfigEntry.data (config_entry (world0 fresh_entry)) !! CONFIG_ENTRY_HOSTNAME
  = None.
Proof. vm_compute. reflexivity. Defined.

Lemma X20_witness :
  ConfigEntry.data (config_entry (world0 fresh_entry)) !! CONFIG_ENTRY_HOSTNAME
  = None
  ∧ result (async_setup_entry (env0 (announce_at 2)) (world0 fresh_entry))
    = Return true
  ∧ ∃ location device,
      create_device (env0 (announce_at 2)) location = Return device
      ∧ ConfigEntry.data
          (config_entry
             (world (async_setup_entry (env0 (announce_at 2))
                       (world0 fresh_entry))))
        !! CONFIG_ENTRY_HOSTNAME = Some (Device.hostname device).
Proof.
  split; [exact stale_free_entry_hostname|]. split; [exact setup_succeeds|].
  exact (missing_hostname_adopted (env0 (announce_at 2)) (world0 fresh_entry)
           true stale_free_entry_hostname setup_succeeds).
Defined.

Lemma patient_entry_hostname :
  ConfigEntry.data (config_entry (world0 patient_entry)) !! CONFIG_ENTRY_HOSTNAME
  = Some "192.168.1.1".
Proof. vm_compute. reflexivity. Defined.

Lemma X21_witness :
  ConfigEntry.data (config_entry (world0 patient_entry)) !! CONFIG_ENTRY_HOSTNAME
  = Some "192.168.1.1"
  ∧ (∀ location device,
       create_device (env0 (announce_at 2)) location = Return device →
       Device.hostname device = "192.168.1.1")
  ∧ count is_data_write
      (calls (async_setup_entry (env0 (announce_at 2)) (world0 patient_entry)))
    = 0%nat.
Proof.
  assert (∀ location device,
            create_device (env0 (announce_at 2)) location = Return device →
            Device.hostname device = "192.168.1.1") as Hdevices.
  { intros location device [= <-]. reflexivity. }
  split; [exact patient_entry_hostname|]. split; [exact Hdevices|].
  exact (current_hostname_no_write (env0 (announce_at 2)) (world0 patient_entry)
           "192.168.1.1" patient_entry_hostname Hdevices).
Defined.
